(** * Restaurant Finder (AG-UI / CrewAI): the UI consumer, the registry
      and the patch mechanism

    The development has three parts.

    - The TypeScript front end as it is written: the agent state of
      [restaurant-types.ts], and from [RestaurantFinder.tsx] the initial
      state, the [provideFeedback] action ([renderAndWaitForResponse] and
      the click handler of an option button), [getStatusText] and the
      three-stage display; the stage display of the earlier component as
      well.  JavaScript values that reach the component untyped (the
      action's [args]) are values of [Js.Value]; a [number] is a rational
      ([Qc]), with NaN as a constructor of its own where truthiness needs
      it, and the arithmetic of doubles is not evaluated; a string is a
      sequence of code units below 256.  Further, what the component
      displays (the view of its body, the card of the chat, the marks and
      captions of the stages, the two patterns of its [strong] override),
      and the earlier component with its [FeedbackPrompt].

    - The render function as docs/human_in_the_loop_guide.md excerpts it,
      and the states and edges of section 4.1 of the specification, to be
      compared with the transition that the front end makes.

    - The adapter's Session Registry and Patch Engine.  The Python back
      end (restaurant_finder_agent/api.py, agui_crew.py) is not among the
      sources, so these definitions follow the text of the specification,
      and each says so. *)

From Stdlib Require Import String Ascii List ZArith QArith Qcanon Lia Bool.
From stdpp Require Import base option list gmap strings.

Set Warnings "-register-all".
Open Scope string_scope.
Open Scope list_scope.

(** JavaScript's [number], without NaN and the infinities. *)
Abbreviation number := Qc.

(* ================================================================== *)
(** ** JavaScript values, as far as the component inspects them        *)
(* ================================================================== *)

Module Js.

Inductive Value :=
| Undefined
| Null
| Bool (b : bool)
| NaN
| Number (n : number)
| Str (s : string)
| Array (elems : list Value)
| Object (props : list (string * Value)).

(** [ToBoolean]: what [!v] and [v || w] test. *)
Definition ToBoolean (v : Value) : bool :=
  match v with
  | Undefined | Null | NaN => false
  | Bool b => b
  | Number n => negb (bool_decide (n = 0%Qc))
  | Str s => negb (String.eqb s EmptyString)
  | Array _ | Object _ => true
  end.

(** [Array.isArray(v)]. *)
Definition isArray (v : Value) : bool :=
  match v with
  | Array _ => true
  | _ => false
  end.

Fixpoint own_property (key : string) (props : list (string * Value)) : Value :=
  match props with
  | [] => Undefined
  | (k, v) :: rest => if String.eqb k key then v else own_property key rest
  end.

(** [v?.key] for a key that no built-in prototype defines (the component
    reads [feedbackOptions] and [message]): [undefined] on [undefined] and
    [null] by the optional chain, the own property on an object, and
    [undefined] on every other value. *)
Definition optional_member (v : Value) (key : string) : Value :=
  match v with
  | Object props => own_property key props
  | _ => Undefined
  end.

(** [a || b]. *)
Definition or (a b : Value) : Value := if ToBoolean a then a else b.

End Js.

(* ================================================================== *)
(** ** restaurant-types.ts                                             *)
(* ================================================================== *)

Record Restaurant := {
  restaurant_id : string;
  restaurant_name : string;
  restaurant_cuisine : option string;
  restaurant_address : option string;
  restaurant_priceRange : option string;
  restaurant_rating : option string;
  restaurant_url : option string;
  restaurant_imageUrl : option string
}.

(** The union of string literals of [status.phase]. *)
Module Phase.

Inductive t :=
| idle
| initialized
| searching_restaurants
| restaurants_found
| presenting_recommendations
| await_feedback
| processing_feedback
| completed
| feedback_completed.

(** The string a value of the union is at run time. *)
Definition literal (p : t) : string :=
  match p with
  | idle => "idle"
  | initialized => "initialized"
  | searching_restaurants => "searching_restaurants"
  | restaurants_found => "restaurants_found"
  | presenting_recommendations => "presenting_recommendations"
  | await_feedback => "await_feedback"
  | processing_feedback => "processing_feedback"
  | completed => "completed"
  | feedback_completed => "feedback_completed"
  end.

Definition all : list t :=
  [idle; initialized; searching_restaurants; restaurants_found;
   presenting_recommendations; await_feedback; processing_feedback;
   completed; feedback_completed].

End Phase.

(** The union of string literals of [search.stage]. *)
Module Stage.

Inductive t :=
| not_started
| searching
| found
| analyzing
| recommending
| feedback
| complete.

Definition literal (s : t) : string :=
  match s with
  | not_started => "not_started"
  | searching => "searching"
  | found => "found"
  | analyzing => "analyzing"
  | recommending => "recommending"
  | feedback => "feedback"
  | complete => "complete"
  end.

End Stage.

(** An optional property ([timestamp?], [restaurants?], ...) is an [option]:
    [None] when the key is absent.  [string | null] is an [option] too, so
    [feedback?: string | null] has two layers. *)
Record Status := {
  status_phase : Phase.t;
  status_error : option string;
  status_timestamp : option string
}.

Record Search := {
  search_query : string;
  search_location : string;
  search_stage : Stage.t;
  search_restaurants_found : number;
  search_restaurants : option (list Restaurant);
  search_completed : bool
}.

Record Processing := {
  processing_progress : number;
  processing_phases : list string;
  processing_currentPhase : string;
  processing_recommendations : option string;
  processing_completed : bool;
  processing_inProgress : bool;
  processing_feedback : option (option string)
}.

Record Ui := {
  ui_showRestaurants : bool;
  ui_showProgress : bool;
  ui_activeTab : string;
  ui_showFeedbackPrompt : option bool;
  ui_feedbackOptions : option (list string)
}.

Record RestaurantFinderAgentState := {
  status : Status;
  search : Search;
  processing : Processing;
  ui : Ui
}.

(** The StateDocument of the protocol is this agent state. *)
Abbreviation StateDocument := RestaurantFinderAgentState.

(** Reading and writing one field: [state.search.location], and the spread
    [{...state, search: {...state.search, location: v}}]. *)
Module Fields.

(** The leaf fields of the state, each with the type of its value. *)
Inductive Field : Type -> Type :=
| status_phase_f : Field Phase.t
| status_error_f : Field (option string)
| status_timestamp_f : Field (option string)
| search_query_f : Field string
| search_location_f : Field string
| search_stage_f : Field Stage.t
| search_restaurants_found_f : Field number
| search_restaurants_f : Field (option (list Restaurant))
| search_completed_f : Field bool
| processing_progress_f : Field number
| processing_phases_f : Field (list string)
| processing_currentPhase_f : Field string
| processing_recommendations_f : Field (option string)
| processing_completed_f : Field bool
| processing_inProgress_f : Field bool
| processing_feedback_f : Field (option (option string))
| ui_showRestaurants_f : Field bool
| ui_showProgress_f : Field bool
| ui_activeTab_f : Field string
| ui_showFeedbackPrompt_f : Field (option bool)
| ui_feedbackOptions_f : Field (option (list string)).

Definition get {A} (f : Field A) (d : StateDocument) : A :=
  match f in Field T return T with
  | status_phase_f => status_phase (status d)
  | status_error_f => status_error (status d)
  | status_timestamp_f => status_timestamp (status d)
  | search_query_f => search_query (search d)
  | search_location_f => search_location (search d)
  | search_stage_f => search_stage (search d)
  | search_restaurants_found_f => search_restaurants_found (search d)
  | search_restaurants_f => search_restaurants (search d)
  | search_completed_f => search_completed (search d)
  | processing_progress_f => processing_progress (processing d)
  | processing_phases_f => processing_phases (processing d)
  | processing_currentPhase_f => processing_currentPhase (processing d)
  | processing_recommendations_f => processing_recommendations (processing d)
  | processing_completed_f => processing_completed (processing d)
  | processing_inProgress_f => processing_inProgress (processing d)
  | processing_feedback_f => processing_feedback (processing d)
  | ui_showRestaurants_f => ui_showRestaurants (ui d)
  | ui_showProgress_f => ui_showProgress (ui d)
  | ui_activeTab_f => ui_activeTab (ui d)
  | ui_showFeedbackPrompt_f => ui_showFeedbackPrompt (ui d)
  | ui_feedbackOptions_f => ui_feedbackOptions (ui d)
  end.

Definition with_status (s : Status) (d : StateDocument) : StateDocument :=
  {| status := s; search := search d; processing := processing d; ui := ui d |}.

Definition with_search (s : Search) (d : StateDocument) : StateDocument :=
  {| status := status d; search := s; processing := processing d; ui := ui d |}.

Definition with_processing (p : Processing) (d : StateDocument) : StateDocument :=
  {| status := status d; search := search d; processing := p; ui := ui d |}.

Definition with_ui (u : Ui) (d : StateDocument) : StateDocument :=
  {| status := status d; search := search d; processing := processing d; ui := u |}.

Definition set {A} (f : Field A) : A -> StateDocument -> StateDocument :=
  match f in Field T return T -> StateDocument -> StateDocument with
  | status_phase_f => fun v d => let s := status d in
      with_status {| status_phase := v; status_error := status_error s;
                     status_timestamp := status_timestamp s |} d
  | status_error_f => fun v d => let s := status d in
      with_status {| status_phase := status_phase s; status_error := v;
                     status_timestamp := status_timestamp s |} d
  | status_timestamp_f => fun v d => let s := status d in
      with_status {| status_phase := status_phase s; status_error := status_error s;
                     status_timestamp := v |} d
  | search_query_f => fun v d => let s := search d in
      with_search {| search_query := v; search_location := search_location s;
                     search_stage := search_stage s;
                     search_restaurants_found := search_restaurants_found s;
                     search_restaurants := search_restaurants s;
                     search_completed := search_completed s |} d
  | search_location_f => fun v d => let s := search d in
      with_search {| search_query := search_query s; search_location := v;
                     search_stage := search_stage s;
                     search_restaurants_found := search_restaurants_found s;
                     search_restaurants := search_restaurants s;
                     search_completed := search_completed s |} d
  | search_stage_f => fun v d => let s := search d in
      with_search {| search_query := search_query s;
                     search_location := search_location s; search_stage := v;
                     search_restaurants_found := search_restaurants_found s;
                     search_restaurants := search_restaurants s;
                     search_completed := search_completed s |} d
  | search_restaurants_found_f => fun v d => let s := search d in
      with_search {| search_query := search_query s;
                     search_location := search_location s;
                     search_stage := search_stage s;
                     search_restaurants_found := v;
                     search_restaurants := search_restaurants s;
                     search_completed := search_completed s |} d
  | search_restaurants_f => fun v d => let s := search d in
      with_search {| search_query := search_query s;
                     search_location := search_location s;
                     search_stage := search_stage s;
                     search_restaurants_found := search_restaurants_found s;
                     search_restaurants := v;
                     search_completed := search_completed s |} d
  | search_completed_f => fun v d => let s := search d in
      with_search {| search_query := search_query s;
                     search_location := search_location s;
                     search_stage := search_stage s;
                     search_restaurants_found := search_restaurants_found s;
                     search_restaurants := search_restaurants s;
                     search_completed := v |} d
  | processing_progress_f => fun v d => let p := processing d in
      with_processing {| processing_progress := v;
                         processing_phases := processing_phases p;
                         processing_currentPhase := processing_currentPhase p;
                         processing_recommendations := processing_recommendations p;
                         processing_completed := processing_completed p;
                         processing_inProgress := processing_inProgress p;
                         processing_feedback := processing_feedback p |} d
  | processing_phases_f => fun v d => let p := processing d in
      with_processing {| processing_progress := processing_progress p;
                         processing_phases := v;
                         processing_currentPhase := processing_currentPhase p;
                         processing_recommendations := processing_recommendations p;
                         processing_completed := processing_completed p;
                         processing_inProgress := processing_inProgress p;
                         processing_feedback := processing_feedback p |} d
  | processing_currentPhase_f => fun v d => let p := processing d in
      with_processing {| processing_progress := processing_progress p;
                         processing_phases := processing_phases p;
                         processing_currentPhase := v;
                         processing_recommendations := processing_recommendations p;
                         processing_completed := processing_completed p;
                         processing_inProgress := processing_inProgress p;
                         processing_feedback := processing_feedback p |} d
  | processing_recommendations_f => fun v d => let p := processing d in
      with_processing {| processing_progress := processing_progress p;
                         processing_phases := processing_phases p;
                         processing_currentPhase := processing_currentPhase p;
                         processing_recommendations := v;
                         processing_completed := processing_completed p;
                         processing_inProgress := processing_inProgress p;
                         processing_feedback := processing_feedback p |} d
  | processing_completed_f => fun v d => let p := processing d in
      with_processing {| processing_progress := processing_progress p;
                         processing_phases := processing_phases p;
                         processing_currentPhase := processing_currentPhase p;
                         processing_recommendations := processing_recommendations p;
                         processing_completed := v;
                         processing_inProgress := processing_inProgress p;
                         processing_feedback := processing_feedback p |} d
  | processing_inProgress_f => fun v d => let p := processing d in
      with_processing {| processing_progress := processing_progress p;
                         processing_phases := processing_phases p;
                         processing_currentPhase := processing_currentPhase p;
                         processing_recommendations := processing_recommendations p;
                         processing_completed := processing_completed p;
                         processing_inProgress := v;
                         processing_feedback := processing_feedback p |} d
  | processing_feedback_f => fun v d => let p := processing d in
      with_processing {| processing_progress := processing_progress p;
                         processing_phases := processing_phases p;
                         processing_currentPhase := processing_currentPhase p;
                         processing_recommendations := processing_recommendations p;
                         processing_completed := processing_completed p;
                         processing_inProgress := processing_inProgress p;
                         processing_feedback := v |} d
  | ui_showRestaurants_f => fun v d => let u := ui d in
      with_ui {| ui_showRestaurants := v; ui_showProgress := ui_showProgress u;
                 ui_activeTab := ui_activeTab u;
                 ui_showFeedbackPrompt := ui_showFeedbackPrompt u;
                 ui_feedbackOptions := ui_feedbackOptions u |} d
  | ui_showProgress_f => fun v d => let u := ui d in
      with_ui {| ui_showRestaurants := ui_showRestaurants u; ui_showProgress := v;
                 ui_activeTab := ui_activeTab u;
                 ui_showFeedbackPrompt := ui_showFeedbackPrompt u;
                 ui_feedbackOptions := ui_feedbackOptions u |} d
  | ui_activeTab_f => fun v d => let u := ui d in
      with_ui {| ui_showRestaurants := ui_showRestaurants u;
                 ui_showProgress := ui_showProgress u; ui_activeTab := v;
                 ui_showFeedbackPrompt := ui_showFeedbackPrompt u;
                 ui_feedbackOptions := ui_feedbackOptions u |} d
  | ui_showFeedbackPrompt_f => fun v d => let u := ui d in
      with_ui {| ui_showRestaurants := ui_showRestaurants u;
                 ui_showProgress := ui_showProgress u;
                 ui_activeTab := ui_activeTab u; ui_showFeedbackPrompt := v;
                 ui_feedbackOptions := ui_feedbackOptions u |} d
  | ui_feedbackOptions_f => fun v d => let u := ui d in
      with_ui {| ui_showRestaurants := ui_showRestaurants u;
                 ui_showProgress := ui_showProgress u;
                 ui_activeTab := ui_activeTab u;
                 ui_showFeedbackPrompt := ui_showFeedbackPrompt u;
                 ui_feedbackOptions := v |} d
  end.

(** The path of a field from the root of the state. *)
Definition path {A} (f : Field A) : string :=
  match f with
  | status_phase_f => "/status/phase"
  | status_error_f => "/status/error"
  | status_timestamp_f => "/status/timestamp"
  | search_query_f => "/search/query"
  | search_location_f => "/search/location"
  | search_stage_f => "/search/stage"
  | search_restaurants_found_f => "/search/restaurants_found"
  | search_restaurants_f => "/search/restaurants"
  | search_completed_f => "/search/completed"
  | processing_progress_f => "/processing/progress"
  | processing_phases_f => "/processing/phases"
  | processing_currentPhase_f => "/processing/currentPhase"
  | processing_recommendations_f => "/processing/recommendations"
  | processing_completed_f => "/processing/completed"
  | processing_inProgress_f => "/processing/inProgress"
  | processing_feedback_f => "/processing/feedback"
  | ui_showRestaurants_f => "/ui/showRestaurants"
  | ui_showProgress_f => "/ui/showProgress"
  | ui_activeTab_f => "/ui/activeTab"
  | ui_showFeedbackPrompt_f => "/ui/showFeedbackPrompt"
  | ui_feedbackOptions_f => "/ui/feedbackOptions"
  end.

End Fields.

(* ================================================================== *)
(** ** JSON.stringify of a string                                      *)
(* ================================================================== *)

Module JSON.

(** The double quote, code 34. *)
Definition dquote : ascii := "034"%char.

Definition hex_digit (n : nat) : ascii :=
  nth n (list_ascii_of_string "0123456789abcdef") "0"%char.

(** Four lower-case hexadecimal digits of a code below 256. *)
Definition unicode_escape (n : nat) : string :=
  "\u00" +:+ String (hex_digit (n / 16)) (String (hex_digit (n mod 16)) EmptyString).

(** QuoteJSONString on one code unit: the two-character escapes of the
    table, a [\uXXXX] escape for the other control characters, and the
    character itself otherwise.  A character of a Rocq string is a code
    unit below 256, so no surrogate occurs. *)
Definition quote_unit (c : ascii) : string :=
  match nat_of_ascii c with
  | 8 => "\b"
  | 9 => "\t"
  | 10 => "\n"
  | 12 => "\f"
  | 13 => "\r"
  | 34 => String "\"%char (String dquote EmptyString)
  | 92 => "\\"
  | n => if (n <? 32)%nat then unicode_escape n else String c EmptyString
  end.

Fixpoint quote_units (s : string) : string :=
  match s with
  | EmptyString => EmptyString
  | String c rest => quote_unit c +:+ quote_units rest
  end.

(** [JSON.stringify(s)] for a string [s]. *)
Definition QuoteJSONString (s : string) : string :=
  String dquote (quote_units s +:+ String dquote EmptyString).

(** [JSON.stringify({ k1: v1, k2: v2 })] for string values: the members in
    insertion order, no white space.  The keys are written as given (the
    two keys of the component need no escape). *)
Definition stringify_members (members : list (string * string)) : string :=
  let member kv := QuoteJSONString (fst kv) +:+ ":" +:+ QuoteJSONString (snd kv) in
  "{" +:+ String.concat "," (map member members) +:+ "}".

(** [s] between two double quotes, as it is. *)
Definition in_quotes (s : string) : string :=
  String dquote (s +:+ String dquote EmptyString).

(** *** Reading the string back

    The click handler's comment says the back end parses the string it is
    sent.  This is JSON.parse on texts of that shape: an object of two
    members with string values, without white space. *)

Definition hex_value (c : ascii) : option nat :=
  let n := nat_of_ascii c in
  if ((48 <=? n) && (n <=? 57))%nat then Some (n - 48)
  else if ((97 <=? n) && (n <=? 102))%nat then Some (n - 87)
  else if ((65 <=? n) && (n <=? 70))%nat then Some (n - 55)
  else None.

(** The code unit of [\uXXXX], when it is below 256. *)
Definition unicode_unit (h1 h2 h3 h4 : ascii) : option ascii :=
  match hex_value h1, hex_value h2, hex_value h3, hex_value h4 with
  | Some 0, Some 0, Some a, Some b => Some (ascii_of_nat (16 * a + b))
  | _, _, _, _ => None
  end.

Definition prepend (c : option ascii) (parsed : option (string * string))
    : option (string * string) :=
  match c, parsed with
  | Some c, Some (s, rest) => Some (String c s, rest)
  | _, _ => None
  end.

(** The characters of a string literal after its opening quote, up to the
    closing quote: the string they denote and what follows the quote. *)
Fixpoint unquote_units (s : string) : option (string * string) :=
  match s with
  | EmptyString => None
  | String c rest =>
      match nat_of_ascii c with
      | 34 => Some (EmptyString, rest)
      | 92 =>
          match rest with
          | String e rest' =>
              match nat_of_ascii e with
              | 34 => prepend (Some dquote) (unquote_units rest')
              | 92 => prepend (Some "\"%char) (unquote_units rest')
              | 47 => prepend (Some "/"%char) (unquote_units rest')
              | 98 => prepend (Some "008"%char) (unquote_units rest')
              | 102 => prepend (Some "012"%char) (unquote_units rest')
              | 110 => prepend (Some "010"%char) (unquote_units rest')
              | 114 => prepend (Some "013"%char) (unquote_units rest')
              | 116 => prepend (Some "009"%char) (unquote_units rest')
              | 117 =>
                  match rest' with
                  | String h1 (String h2 (String h3 (String h4 rest''))) =>
                      prepend (unicode_unit h1 h2 h3 h4) (unquote_units rest'')
                  | _ => None
                  end
              | _ => None
              end
          | EmptyString => None
          end
      | n => if (n <? 32)%nat then None else prepend (Some c) (unquote_units rest)
      end
  end.

(** A string literal at the head of [s]. *)
Definition parse_string (s : string) : option (string * string) :=
  match s with
  | String c rest => if Ascii.eqb c dquote then unquote_units rest else None
  | EmptyString => None
  end.

(** The character [c] at the head of [s]. *)
Definition expect (c : ascii) (s : string) : option string :=
  match s with
  | String c' rest => if Ascii.eqb c' c then Some rest else None
  | EmptyString => None
  end.

(** An object of two members with string values. *)
Definition parse_two_members (s : string)
    : option ((string * string) * (string * string)) :=
  s ← expect "{"%char s;
  '(k1, s) ← parse_string s;
  s ← expect ":"%char s;
  '(v1, s) ← parse_string s;
  s ← expect ","%char s;
  '(k2, s) ← parse_string s;
  s ← expect ":"%char s;
  '(v2, s) ← parse_string s;
  s ← expect "}"%char s;
  match s with
  | EmptyString => Some ((k1, v1), (k2, v2))
  | _ => None
  end.

End JSON.

(* ================================================================== *)
(** ** RestaurantFinder.tsx                                            *)
(* ================================================================== *)

Module RestaurantFinder.

(** [initialState] of [useCoAgent]. *)
Definition initialState : RestaurantFinderAgentState := {|
  status := {|
    status_phase := Phase.idle;
    status_error := None;
    status_timestamp := None |};
  search := {|
    search_query := EmptyString;
    search_location := EmptyString;
    search_stage := Stage.not_started;
    search_restaurants_found := 0%Qc;
    search_restaurants := Some [];
    search_completed := false |};
  processing := {|
    processing_progress := 0%Qc;
    processing_phases := ["search"; "recommend"; "feedback"];
    processing_currentPhase := EmptyString;
    processing_recommendations := None;
    processing_completed := false;
    processing_inProgress := false;
    processing_feedback := None |};
  ui := {|
    ui_showRestaurants := false;
    ui_showProgress := false;
    ui_activeTab := "chat";
    ui_showFeedbackPrompt := Some false;
    ui_feedbackOptions := Some
      ["Thanks for the recommendations! These look perfect.";
       "Can you suggest more restaurants with different cuisines?";
       "I'm looking for more budget-friendly dining options.";
       "I prefer upscale fine dining experiences. Any suggestions?";
       "Are there any restaurants with unique dining experiences?"] |}
|}.

(** [isPhase(phase, comparePhase)]: [phase === comparePhase], where [phase]
    is [state?.status?.phase], a string or [undefined]. *)
Definition isPhase (phase : option string) (comparePhase : string) : bool :=
  match phase with
  | Some p => String.eqb p comparePhase
  | None => false
  end.

(** *** The provideFeedback action *)

(** The defaults that [renderAndWaitForResponse] falls back to. *)
Definition defaultFeedbackOptions : list string :=
  ["Thank you for the recommendations! These look perfect.";
   "Can you suggest more restaurants with different cuisines?";
   "I'm looking for more budget-friendly dining options.";
   "I prefer upscale fine dining experiences. Any suggestions?";
   "Are there any restaurants with unique dining experiences?"].

Definition defaultMessage : string :=
  "How do you feel about these recommendations?".

(** What the render function returns: the placeholder, or the feedback
    section with its heading (the child of the [h3]) and one button per
    option (the child of each [button]).  Children are kept as the
    JavaScript values they are. *)
Inductive Element :=
| Placeholder (text : string)
| FeedbackSection (heading : Js.Value) (buttons : list Js.Value).

(** The elements of the array [feedbackOptions.map] runs over. *)
Definition array_elements (v : Js.Value) : list Js.Value :=
  match v with
  | Js.Array elems => elems
  | _ => []
  end.

(** [renderAndWaitForResponse: ({ args, respond }) => ...].  [respond] is
    [None] while the function is not available ([!respond]). *)
Definition renderAndWaitForResponse {R : Type}
    (args : Js.Value) (respond : option R) : Element :=
  let feedbackOptions := Js.optional_member args "feedbackOptions" in
  let message := Js.optional_member args "message" in
  let feedbackOptions :=
    if negb (Js.isArray feedbackOptions)
    then Js.Array (map Js.Str defaultFeedbackOptions)
    else feedbackOptions in
  let message :=
    if negb (Js.ToBoolean message) then Js.Str defaultMessage else message in
  match respond with
  | None => Placeholder "Loading feedback options..."
  | Some _ =>
      FeedbackSection
        (Js.or message (Js.Str "How do you feel about these recommendations?"))
        (array_elements feedbackOptions)
  end.

(** The state that the updater passed to [setState] returns:
    [{...state, processing: {...state.processing, inProgress: true},
      status: {...state.status, phase: "processing_feedback"}}]. *)
Definition processing_feedback_state
    (state : RestaurantFinderAgentState) : RestaurantFinderAgentState := {|
  status := {|
    status_phase := Phase.processing_feedback;
    status_error := status_error (status state);
    status_timestamp := status_timestamp (status state) |};
  search := search state;
  processing := {|
    processing_progress := processing_progress (processing state);
    processing_phases := processing_phases (processing state);
    processing_currentPhase := processing_currentPhase (processing state);
    processing_recommendations := processing_recommendations (processing state);
    processing_completed := processing_completed (processing state);
    processing_inProgress := true;
    processing_feedback := processing_feedback (processing state) |};
  ui := ui state
|}.

(** [state?.search?.location || ""]. *)
Definition originalLocation (state : RestaurantFinderAgentState) : string :=
  if String.eqb (search_location (search state)) EmptyString
  then EmptyString
  else search_location (search state).

(** [JSON.stringify({ feedbackText: option, originalLocation })]. *)
Definition feedbackJsonString
    (state : RestaurantFinderAgentState) (option : string) : string :=
  JSON.stringify_members
    [("feedbackText", option); ("originalLocation", originalLocation state)].

(** What a click does, in order.  The updater given to [setState] takes no
    argument: it ignores the previous state and builds the next one from
    the [state] the component rendered with. *)
Inductive Effect :=
| SetState (updater : RestaurantFinderAgentState -> RestaurantFinderAgentState)
| ConsoleLog (line : string)
| Respond (result : string).

(** [onClick] of the button of [option]. *)
Definition onClick
    (state : RestaurantFinderAgentState) (option : string) : list Effect :=
  [ SetState (fun _ => processing_feedback_state state);
    ConsoleLog ("Sending feedback: " +:+ feedbackJsonString state option);
    Respond (feedbackJsonString state option) ].

(** The state after the effects that come before the first call of
    [respond], and the value [respond] is called with. *)
Fixpoint state_before_respond
    (effects : list Effect) (current : RestaurantFinderAgentState)
    : RestaurantFinderAgentState :=
  match effects with
  | SetState updater :: rest => state_before_respond rest (updater current)
  | ConsoleLog _ :: rest => state_before_respond rest current
  | Respond _ :: _ => current
  | [] => current
  end.

Fixpoint responded (effects : list Effect) : option string :=
  match effects with
  | Respond result :: _ => Some result
  | _ :: rest => responded rest
  | [] => None
  end.

(** *** Status text and the three-stage display *)

(** [getStatusText], on [state?.status?.phase]. *)
Definition getStatusText (phase : option string) : string :=
  if isPhase phase "initialized" then "Ready to search for restaurants"
  else if isPhase phase "searching_restaurants" then "Searching for restaurants..."
  else if isPhase phase "restaurants_found"
    then "Found restaurants, preparing recommendations..."
  else if isPhase phase "presenting_recommendations"
    then "Creating personalized recommendations..."
  else if isPhase phase "await_feedback" then "Ready for your feedback"
  else if isPhase phase "processing_feedback" then "Processing your feedback..."
  else if isPhase phase "completed" then "Restaurant recommendations ready"
  else if isPhase phase "feedback_completed"
    then "Updated recommendations based on your feedback"
  else "Ready to assist".

(** The three looks of a stage item: the blue border of the stage at work,
    the green border of a finished stage, the grey border otherwise. *)
Inductive Look := Grey | Blue | Green.

(** "Finding Restaurants". *)
Definition research_stage (phase : option string) : Look :=
  if isPhase phase "searching_restaurants" then Blue
  else if isPhase phase "restaurants_found"
       || isPhase phase "presenting_recommendations"
       || isPhase phase "await_feedback"
       || isPhase phase "processing_feedback"
       || isPhase phase "completed"
       || isPhase phase "feedback_completed" then Green
  else Grey.

(** "Creating Recommendations". *)
Definition recommendation_stage (phase : option string) : Look :=
  if isPhase phase "presenting_recommendations" then Blue
  else if isPhase phase "await_feedback"
       || isPhase phase "processing_feedback"
       || isPhase phase "completed"
       || isPhase phase "feedback_completed" then Green
  else Grey.

(** "Feedback & Refinement". *)
Definition feedback_stage (phase : option string) : Look :=
  if isPhase phase "await_feedback" || isPhase phase "processing_feedback" then Blue
  else if isPhase phase "completed" || isPhase phase "feedback_completed" then Green
  else Grey.

End RestaurantFinder.

(* ================================================================== *)
(** ** The earlier component: RestaurantProcessStages                  *)
(* ================================================================== *)

(** The stage display of the second [RestaurantFinder] component of the
    repository (the one without the feedback action).  It also compares the
    phase with [research_phase], [recommendation_phase] and
    [generating_recommendations], which the type of [status.phase] does not
    hold, and it has no case for [presenting_recommendations] or
    [feedback_completed]. *)
Module ProcessStages.

Import RestaurantFinder.

(** "Research Phase: Find Restaurants". *)
Definition research_stage (phase : option string) : Look :=
  if isPhase phase "research_phase" || isPhase phase "searching_restaurants" then Blue
  else if isPhase phase "restaurants_found"
       || isPhase phase "recommendation_phase"
       || isPhase phase "generating_recommendations"
       || isPhase phase "completed" then Green
  else Grey.

(** "Recommendation Phase". *)
Definition recommendation_stage (phase : option string) : Look :=
  if isPhase phase "recommendation_phase"
     || isPhase phase "generating_recommendations" then Blue
  else if isPhase phase "await_feedback"
       || isPhase phase "processing_feedback"
       || isPhase phase "completed" then Green
  else Grey.

(** "Feedback Phase". *)
Definition feedback_stage (phase : option string) : Look :=
  if isPhase phase "await_feedback" || isPhase phase "processing_feedback" then Blue
  else if isPhase phase "completed" then Green
  else Grey.

End ProcessStages.

(* ================================================================== *)
(** ** The states and edges of section 4.1                             *)
(* ================================================================== *)

Module RunPhases.

(** The states of section 4.1 of the specification, under the names the
    section gives them. *)
Inductive State :=
| idle
| initialized
| searching
| found
| recommending
| await_feedback
| processing_feedback
| completed
| feedback_completed
| error.

(** The chain of section 4.1, as the section writes it: what a state may
    be followed by, [feedback_completed] after [processing_feedback]
    only. *)
Definition successors (s : State) : list State :=
  match s with
  | idle => [initialized]
  | initialized => [searching]
  | searching => [found]
  | found => [recommending]
  | recommending => [await_feedback]
  | await_feedback => [processing_feedback]
  | processing_feedback => [completed; feedback_completed]
  | completed | feedback_completed | error => []
  end.

Definition terminal (s : State) : bool :=
  match s with
  | completed | feedback_completed | error => true
  | _ => false
  end.

(** An edge of section 4.1: a step of the chain, or the step to [error]
    from a state that is not terminal. *)
Definition edge (s t : State) : Prop :=
  In t (successors s) \/ (terminal s = false /\ t = error).

(** The state of section 4.1 that a literal of the type stands for.  The
    type writes [searching_restaurants], [restaurants_found] and
    [presenting_recommendations] where the section writes searching, found
    and recommending; no literal stands for the error state. *)
Definition state_of (p : Phase.t) : State :=
  match p with
  | Phase.idle => idle
  | Phase.initialized => initialized
  | Phase.searching_restaurants => searching
  | Phase.restaurants_found => found
  | Phase.presenting_recommendations => recommending
  | Phase.await_feedback => await_feedback
  | Phase.processing_feedback => processing_feedback
  | Phase.completed => completed
  | Phase.feedback_completed => feedback_completed
  end.



(** Grey, then blue, then green: a stage waits, is at work, is done. *)
Definition look_rank (l : RestaurantFinder.Look) : nat :=
  match l with
  | RestaurantFinder.Grey => 0
  | RestaurantFinder.Blue => 1
  | RestaurantFinder.Green => 2
  end.

Definition not_back (a b : RestaurantFinder.Look) : Prop :=
  look_rank a <= look_rank b.

(** What the component reads: [state?.status?.phase] of a typed state. *)
Definition observed (p : Phase.t) : option string := Some (Phase.literal p).

End RunPhases.

(* ================================================================== *)
(** ** The Patch Engine                                                *)
(* ================================================================== *)

(** Equality of every field type is decidable: the field-level diff
    compares the old and the new value of each field. *)
#[global] Instance Phase_eq_dec : EqDecision Phase.t.
Proof. solve_decision. Defined.

#[global] Instance Stage_eq_dec : EqDecision Stage.t.
Proof. solve_decision. Defined.

#[global] Instance Restaurant_eq_dec : EqDecision Restaurant.
Proof. solve_decision. Defined.

Module PatchEngine.

Import Fields.

(** Modelled from the spec: the mutation operations of a StateDelta,
    set-field, append-to-list and increment.  Append-to-list is modelled on
    the one list that grows an element at a time, [search.restaurants].
    The Patch Engine is a part of the Python back end, which is not among
    the sources. *)
Inductive Op :=
| SetField {A} (f : Field A) (value : A)
| AppendRestaurant (r : Restaurant)
| Increment (f : Field number) (amount : number).

(** Modelled from the spec: applying one operation to a document.  Appending
    to a list that is absent fails; nothing else can. *)
Definition apply_op (op : Op) (d : StateDocument) : option StateDocument :=
  match op with
  | SetField f value => Some (set f value d)
  | AppendRestaurant r =>
      match search_restaurants (search d) with
      | Some l => Some (set search_restaurants_f (Some (l ++ [r])) d)
      | None => None
      end
  | Increment f amount => Some (set f (get f d + amount)%Qc d)
  end.

(** Modelled from the spec: a StateDelta is an ordered list of operations,
    applied in order. *)
Fixpoint apply_ops (ops : list Op) (d : StateDocument) : option StateDocument :=
  match ops with
  | [] => Some d
  | op :: rest =>
      match apply_op op d with
      | Some d' => apply_ops rest d'
      | None => None
      end
  end.

(** Modelled from the spec: the field-level diff of one field, a set-field
    when the value changed and nothing otherwise. *)
Definition diff_field {A} `{EqDecision A}
    (f : Field A) (old new : StateDocument) : list Op :=
  if decide (get f old = get f new) then [] else [SetField f (get f new)].

(** Modelled from the spec: a counter that grew is incremented by the
    difference; any other change is a set-field. *)
Definition diff_counter
    (f : Field number) (old new : StateDocument) : list Op :=
  if decide (get f old = get f new) then []
  else if decide (get f old < get f new)%Qc
       then [Increment f (get f new - get f old)%Qc]
       else [SetField f (get f new)].

(** The elements [new] has after [old], when [old] is a prefix of it. *)
Fixpoint appended (old new : list Restaurant) : option (list Restaurant) :=
  match old, new with
  | [], _ => Some new
  | _ :: _, [] => None
  | x :: old', y :: new' => if decide (x = y) then appended old' new' else None
  end.

(** Modelled from the spec: restaurants added at the end of the list give
    one append each, not the list again; any other change of the list is a
    set-field. *)
Definition diff_restaurants (old new : StateDocument) : list Op :=
  match search_restaurants (search old), search_restaurants (search new) with
  | Some lo, Some ln =>
      match appended lo ln with
      | Some added => map AppendRestaurant added
      | None => [SetField search_restaurants_f (Some ln)]
      end
  | None, None => []
  | _, v => [SetField search_restaurants_f v]
  end.

(** Modelled from the spec: the delta that turns the previously emitted
    document into the new one, field by field. *)
Definition diff (old new : StateDocument) : list Op :=
  diff_field status_phase_f old new ++
  diff_field status_error_f old new ++
  diff_field status_timestamp_f old new ++
  diff_field search_query_f old new ++
  diff_field search_location_f old new ++
  diff_field search_stage_f old new ++
  diff_counter search_restaurants_found_f old new ++
  diff_restaurants old new ++
  diff_field search_completed_f old new ++
  diff_field processing_progress_f old new ++
  diff_field processing_phases_f old new ++
  diff_field processing_currentPhase_f old new ++
  diff_field processing_recommendations_f old new ++
  diff_field processing_completed_f old new ++
  diff_field processing_inProgress_f old new ++
  diff_field processing_feedback_f old new ++
  diff_field ui_showRestaurants_f old new ++
  diff_field ui_showProgress_f old new ++
  diff_field ui_activeTab_f old new ++
  diff_field ui_showFeedbackPrompt_f old new ++
  diff_field ui_feedbackOptions_f old new.

End PatchEngine.

(* ================================================================== *)
(** ** The Session Registry                                            *)
(* ================================================================== *)

Module SessionRegistry.

(** Modelled from the spec: the PendingFeedback a suspended run leaves
    behind for the resume request.  The registry and the run controller
    are parts of the Python back end, which is not among the sources. *)
Record PendingFeedback := {
  pending_thread_id : string;
  prior_recommendation : string;
  prior_restaurants : list Restaurant;
  pending_feedbackOptions : list string
}.

(** Modelled from the spec: an entry of the table, with the time it was
    registered at, which the TTL sweep compares with. *)
Record Entry := {
  entry_data : PendingFeedback;
  entry_registered_at : Z
}.

(** Modelled from the spec: the process-wide table from thread identifier
    to PendingFeedback. *)
Abbreviation Registry := (gmap string Entry).

Inductive Error := DuplicateThread | NotFound.

(** Modelled from the spec: [register(thread_id, data)] fails with
    DuplicateThread if an entry exists and the caller did not explicitly
    overwrite. *)
Definition register (now : Z) (overwrite : bool)
    (thread_id : string) (data : PendingFeedback) (reg : Registry)
    : Error + Registry :=
  let entry := {| entry_data := data; entry_registered_at := now |} in
  match reg !! thread_id with
  | Some _ =>
      if overwrite then inr (<[thread_id := entry]> reg) else inl DuplicateThread
  | None => inr (<[thread_id := entry]> reg)
  end.

(** Modelled from the spec: [take(thread_id)] retrieves and deletes, and
    returns NotFound if the entry is absent. *)
Definition take (thread_id : string) (reg : Registry)
    : Error + (PendingFeedback * Registry) :=
  match reg !! thread_id with
  | Some entry => inr (entry_data entry, delete thread_id reg)
  | None => inl NotFound
  end.

(** Modelled from the spec: [expire(thread_id, after)] removes the entry
    when it is older than [after]. *)
Definition expire (now : Z) (thread_id : string) (after : Z) (reg : Registry)
    : Registry :=
  match reg !! thread_id with
  | Some entry =>
      if (entry_registered_at entry + after <? now)%Z
      then delete thread_id reg
      else reg
  | None => reg
  end.

(** A call on the registry, and the registry after it (a call that fails
    leaves the table as it was). *)
Inductive Call :=
| Register (now : Z) (overwrite : bool) (thread_id : string) (data : PendingFeedback)
| Take (thread_id : string)
| Expire (now : Z) (thread_id : string) (after : Z).

Definition after_call (c : Call) (reg : Registry) : Registry :=
  match c with
  | Register now overwrite thread_id data =>
      match register now overwrite thread_id data reg with
      | inr reg' => reg'
      | inl _ => reg
      end
  | Take thread_id =>
      match take thread_id reg with
      | inr (_, reg') => reg'
      | inl _ => reg
      end
  | Expire now thread_id after => expire now thread_id after reg
  end.

Definition after_calls (calls : list Call) (reg : Registry) : Registry :=
  fold_left (fun r c => after_call c r) calls reg.

(** The call registers [thread_id]. *)
Definition registers (thread_id : string) (c : Call) : bool :=
  match c with
  | Register _ _ t _ => String.eqb t thread_id
  | _ => false
  end.

End SessionRegistry.

(* ================================================================== *)
(** ** Events, requests and the state events of a run                  *)
(* ================================================================== *)

Module Adapter.

(** Modelled from the spec: the error taxonomy of the adapter, whose code
    (the Python back end) is not among the sources. *)
Inductive ErrorKind :=
| WorkflowFailure
| UnknownThread
| DuplicateThreadKind
| MalformedResume.

(** Modelled from the spec: the tagged variant of protocol events, each
    with the [message_id] it carries. *)
Inductive Event :=
| RunStarted (message_id : string)
| RunFinished (message_id : string)
| RunError (message_id : string) (kind : ErrorKind) (message : string)
| StateSnapshot (message_id : string) (document : RestaurantFinderAgentState)
| StateDelta (message_id : string) (delta : list PatchEngine.Op)
| TextMessageStart (message_id : string)
| TextMessageContent (message_id : string) (chunk : string)
| TextMessageEnd (message_id : string)
| ToolCallStart (message_id : string) (tool : string)
| ToolCallArgs (message_id : string) (args : string)
| ToolCallEnd (message_id : string).

Definition is_StateSnapshot (e : Event) : bool :=
  match e with
  | StateSnapshot _ _ => true
  | _ => false
  end.

(** The events a StateDocument mutation is attributed to. *)
Definition is_state_event (e : Event) : bool :=
  match e with
  | StateSnapshot _ _ | StateDelta _ _ => true
  | _ => false
  end.

(** Modelled from the spec: the inbound request,
    [{thread_id, run_id, messages: [...], feedback?: string}]. *)
Record Message := {
  message_role : string;
  message_content : string
}.

Record Request := {
  thread_id : string;
  run_id : string;
  messages : list Message;
  feedback : option string
}.

(** Modelled from the spec: the UI consumer applies a StateSnapshot
    wholesale and a StateDelta incrementally to its local mirror of the
    StateDocument; no other event touches the mirror. *)
Definition apply_event (e : Event) (mirror : RestaurantFinderAgentState)
    : option RestaurantFinderAgentState :=
  match e with
  | StateSnapshot _ document => Some document
  | StateDelta _ delta => PatchEngine.apply_ops delta mirror
  | _ => Some mirror
  end.

Fixpoint apply_events (es : list Event) (mirror : RestaurantFinderAgentState)
    : option RestaurantFinderAgentState :=
  match es with
  | [] => Some mirror
  | e :: rest =>
      match apply_event e mirror with
      | Some mirror' => apply_events rest mirror'
      | None => None
      end
  end.

(** *** One run's state events *)

(** What a run does between its snapshot and its end: it mutates its
    StateDocument to a new value, or it emits an event that carries no
    state (text, tool calls, the run's own start and end). *)
Inductive Step :=
| Mutate (next : RestaurantFinderAgentState)
| Signal (e : Event).

Definition signal_only (s : Step) : bool :=
  match s with
  | Mutate _ => true
  | Signal e => negb (is_state_event e)
  end.

(** Modelled from the spec: every mutation is attributed to one StateDelta,
    which the Patch Engine computes from the previously emitted document
    and the new one. *)
Fixpoint deltas (message_id : string)
    (emitted : RestaurantFinderAgentState) (steps : list Step) : list Event :=
  match steps with
  | [] => []
  | Mutate next :: rest =>
      StateDelta message_id (PatchEngine.diff emitted next)
        :: deltas message_id next rest
  | Signal e :: rest => e :: deltas message_id emitted rest
  end.

(** Modelled from the spec: what the run emits before it has a document
    ([prelude]: RunStarted and the like), one StateSnapshot of the document
    the run starts with, then the deltas. *)
Definition run_events (message_id : string) (prelude : list Event)
    (start : RestaurantFinderAgentState) (steps : list Step) : list Event :=
  prelude ++ StateSnapshot message_id start :: deltas message_id start steps.

(** The run's internal StateDocument after its steps. *)
Fixpoint final_state
    (current : RestaurantFinderAgentState) (steps : list Step)
    : RestaurantFinderAgentState :=
  match steps with
  | [] => current
  | Mutate next :: rest => final_state next rest
  | Signal _ :: rest => final_state current rest
  end.

(** Modelled from the spec: the UI consumer returns its answer in a new
    top-level request that carries the same [thread_id] and the answer in
    the [feedback] field.  The transport between [respond] and the request
    is CopilotKit's. *)
Definition answer_request (thread : string) (run : string)
    (history : list Message) (answer : string) : Request := {|
  thread_id := thread;
  run_id := run;
  messages := history;
  feedback := Some answer
|}.

End Adapter.

(* ================================================================== *)
(** ** Strings of JavaScript: truth and trim                           *)
(* ================================================================== *)

Module JsString.

(** [ToBoolean] of a string: [s && ...], [!s]. *)
Definition ToBoolean (s : string) : bool := negb (String.eqb s EmptyString).

(** [ToBoolean] of an optional string property: [undefined] is false. *)
Definition present (field : option string) : bool :=
  match field with
  | Some s => ToBoolean s
  | None => false
  end.

(** WhiteSpace and LineTerminator among the code units below 256: TAB, LF,
    VT, FF, CR, SP and NBSP. *)
Definition is_white_space (c : ascii) : bool :=
  existsb (Nat.eqb (nat_of_ascii c)) [9; 10; 11; 12; 13; 32; 160].

Fixpoint trimStart (s : string) : string :=
  match s with
  | EmptyString => EmptyString
  | String c rest => if is_white_space c then trimStart rest else s
  end.

Fixpoint trimEnd (s : string) : string :=
  match s with
  | EmptyString => EmptyString
  | String c rest =>
      match trimEnd rest with
      | EmptyString => if is_white_space c then EmptyString else String c EmptyString
      | kept => String c kept
      end
  end.

(** [s.trim()]. *)
Definition trim (s : string) : string := trimEnd (trimStart s).

(** Whether every code unit of [s] is one of [member]. *)
Fixpoint all_units (member : ascii -> bool) (s : string) : bool :=
  match s with
  | EmptyString => true
  | String c rest => member c && all_units member rest
  end.

(** No code unit of [s] but white space. *)
Definition blank (s : string) : bool := all_units is_white_space s.

(** A code unit that is not a control character (U+0000 to U+001F). *)
Definition printable (c : ascii) : bool := (32 <=? nat_of_ascii c)%nat.

End JsString.

(* ================================================================== *)
(** ** RestaurantFinder.tsx: what the component displays               *)
(* ================================================================== *)

Module FinderView.

Import RestaurantFinder.

(** The mark in the circle of a stage: the check mark, or the number of the
    stage. *)
Inductive Badge := Check | Numeral (n : nat).

(** One item of the stage display: the look of its border, the look of its
    circle, the mark in the circle, its label and the captions under it. *)
Record StageItem := {
  item_border : Look;
  item_circle : Look;
  item_badge : Badge;
  item_label : string;
  item_captions : list string
}.

(** A width in per cent.  The code computes it with the arithmetic of
    doubles ([progress * 100], [Math.max(5, progress * 100)]) and writes
    the result into a style; the development does not evaluate that
    arithmetic: a width is the expression, with the value of its
    operand. *)
Inductive Width :=
| TimesHundred (operand : number)
| MaxFive (width : Width).

(** [n || 0]. *)
Definition or_zero (n : number) : number :=
  if bool_decide (n = 0%Qc) then 0%Qc else n.

(** [s || fallback] for strings. *)
Definition or_text (s fallback : string) : string :=
  if JsString.ToBoolean s then s else fallback.

(** [cond && element] on a string: the string if it is not empty. *)
Definition shown (field : option string) : option string :=
  match field with
  | Some s => if JsString.ToBoolean s then Some s else None
  | None => None
  end.

(** [state?.status?.phase] of a typed state. *)
Definition phase_of (state : RestaurantFinderAgentState) : option string :=
  Some (Phase.literal (status_phase (status state))).

(** The width of the progress bar, in per cent:
    [(state?.processing?.progress || 0) * 100]. *)
Definition barWidth (state : RestaurantFinderAgentState) : Width :=
  TimesHundred (or_zero (processing_progress (processing state))).

(** [state?.search?.restaurants_found > 0 && ...]: the count that the line
    shows, when it is shown. *)
Definition foundCount (state : RestaurantFinderAgentState) : option number :=
  if bool_decide (0 < search_restaurants_found (search state))%Qc
  then Some (search_restaurants_found (search state))
  else None.

(** The circle of "Finding Restaurants" (lines 343-360). *)
Definition research_circle (phase : option string) : Look :=
  if isPhase phase "searching_restaurants" then Blue
  else if isPhase phase "restaurants_found"
       || isPhase phase "presenting_recommendations"
       || isPhase phase "await_feedback"
       || isPhase phase "processing_feedback"
       || isPhase phase "completed"
       || isPhase phase "feedback_completed" then Green
  else Grey.

(** The mark in it (lines 362-372). *)
Definition research_badge (phase : option string) : Badge :=
  if isPhase phase "restaurants_found"
     || isPhase phase "presenting_recommendations"
     || isPhase phase "await_feedback"
     || isPhase phase "processing_feedback"
     || isPhase phase "completed"
     || isPhase phase "feedback_completed" then Check
  else Numeral 1.

(** The caption (lines 378-383). *)
Definition research_captions (phase : option string) (location : string)
    : list string :=
  if isPhase phase "searching_restaurants"
  then ["Searching for restaurants in " +:+ or_text location "your location"]
  else [].

Definition research_item (phase : option string) (location : string) : StageItem := {|
  item_border := research_stage phase;
  item_circle := research_circle phase;
  item_badge := research_badge phase;
  item_label := "Finding Restaurants";
  item_captions := research_captions phase location
|}.

(** The circle of "Creating Recommendations" (lines 399-414). *)
Definition recommendation_circle (phase : option string) : Look :=
  if isPhase phase "presenting_recommendations" then Blue
  else if isPhase phase "await_feedback"
       || isPhase phase "processing_feedback"
       || isPhase phase "completed"
       || isPhase phase "feedback_completed" then Green
  else Grey.

Definition recommendation_badge (phase : option string) : Badge :=
  if isPhase phase "await_feedback"
     || isPhase phase "processing_feedback"
     || isPhase phase "completed"
     || isPhase phase "feedback_completed" then Check
  else Numeral 2.

Definition recommendation_captions (phase : option string) : list string :=
  if isPhase phase "presenting_recommendations"
  then ["Analyzing restaurant options"]
  else [].

Definition recommendation_item (phase : option string) : StageItem := {|
  item_border := recommendation_stage phase;
  item_circle := recommendation_circle phase;
  item_badge := recommendation_badge phase;
  item_label := "Creating Recommendations";
  item_captions := recommendation_captions phase
|}.

(** The circle of "Feedback & Refinement" (lines 449-457). *)
Definition feedback_circle (phase : option string) : Look :=
  if isPhase phase "await_feedback" || isPhase phase "processing_feedback" then Blue
  else if isPhase phase "completed" || isPhase phase "feedback_completed" then Green
  else Grey.

Definition feedback_badge (phase : option string) : Badge :=
  if isPhase phase "completed" || isPhase phase "feedback_completed" then Check
  else Numeral 3.

Definition feedback_captions (phase : option string) : list string :=
  if isPhase phase "await_feedback" || isPhase phase "processing_feedback"
  then ["Waiting for your feedback"]
  else [].

Definition feedback_item (phase : option string) : StageItem := {|
  item_border := feedback_stage phase;
  item_circle := feedback_circle phase;
  item_badge := feedback_badge phase;
  item_label := "Feedback & Refinement";
  item_captions := feedback_captions phase
|}.

(** The three items of "Search Process", top to bottom. *)
Definition stages (phase : option string) (location : string) : list StageItem :=
  [research_item phase location; recommendation_item phase; feedback_item phase].

(** A card of the restaurants grid (lines 676-724): the image with its
    [src] and [alt], the name, and each optional property that is there and
    not empty. *)
Record Card := {
  card_key : string;
  card_image : option (string * string);
  card_name : string;
  card_cuisine : option string;
  card_rating : option string;
  card_priceRange : option string;
  card_address : option string;
  card_website : option string
}.

Definition restaurant_card (restaurant : Restaurant) : Card := {|
  card_key := restaurant_id restaurant;
  card_image :=
    match shown (restaurant_imageUrl restaurant) with
    | Some src => Some (src, restaurant_name restaurant)
    | None => None
    end;
  card_name := restaurant_name restaurant;
  card_cuisine := shown (restaurant_cuisine restaurant);
  card_rating := shown (restaurant_rating restaurant);
  card_priceRange := shown (restaurant_priceRange restaurant);
  card_address := shown (restaurant_address restaurant);
  card_website := shown (restaurant_url restaurant)
|}.

(** The grid: [restaurants && restaurants.length > 0 && ui.showRestaurants]. *)
Definition restaurants_grid (state : RestaurantFinderAgentState) : option (list Card) :=
  match search_restaurants (search state) with
  | Some restaurants =>
      if bool_decide (0 < length restaurants) && ui_showRestaurants (ui state)
      then Some (map restaurant_card restaurants)
      else None
  | None => None
  end.

(** [state?.processing?.feedback], when it is a string that is not empty. *)
Definition feedback_text (state : RestaurantFinderAgentState) : option string :=
  match processing_feedback (processing state) with
  | Some feedback => shown feedback
  | None => None
  end.

(** What the component returns.  The progress panel: the status text, the
    width of the bar, the stage items and the count of the line "Found n
    restaurants matching your criteria".  The recommendations: the title,
    the location of the badge, the feedback of the banner "Based on your
    feedback", the markdown text given to ReactMarkdown and the cards of
    the grid.  The third view has no part that depends on the state. *)
Inductive View :=
| ProgressPanel (statusText : string) (width : Width)
    (items : list StageItem) (found : option number)
| Recommendations (title : string) (location : option string)
    (banner : option string) (markdown : option string)
    (grid : option (list Card))
| Ready.

(** The body of the component after its hooks (lines 295-779), on the
    state and on [isProcessingInProgress.current]: the view it returns and
    the flag afterwards. *)
Definition render (state : RestaurantFinderAgentState) (isProcessingInProgress : bool)
    : View * bool :=
  let phase := phase_of state in
  if negb (isPhase phase "completed")
     && negb (isPhase phase "feedback_completed")
     && (isProcessingInProgress
         || processing_inProgress (processing state)
         || isPhase phase "await_feedback")
  then
    (ProgressPanel (getStatusText phase) (barWidth state)
       (stages phase (search_location (search state))) (foundCount state),
     isProcessingInProgress)
  else if isPhase phase "completed" || isPhase phase "feedback_completed"
  then
    let isFeedbackProcessed := isPhase phase "feedback_completed" in
    (Recommendations
       (if isFeedbackProcessed
        then "Updated Recommendations" else "Restaurant Recommendations")
       (shown (Some (search_location (search state))))
       (if isFeedbackProcessed then feedback_text state else None)
       (shown (processing_recommendations (processing state)))
       (restaurants_grid state),
     if isPhase phase "feedback_completed" then false else isProcessingInProgress)
  else (Ready, isProcessingInProgress).

(** The card that the render function of [useCoAgentStateRender] returns
    in the chat (lines 120-159): the status text, the width of the bar, and
    the count with the ending of "restaurant". *)
Record ChatCard := {
  chat_statusText : string;
  chat_width : Width;
  chat_found : option (number * string)
}.

Definition plural (n : number) : string :=
  if negb (bool_decide (n = 1%Qc)) then "s" else EmptyString.

Definition agentStateRender
    (status : string) (state : RestaurantFinderAgentState)
    (isProcessingInProgress : bool) : option ChatCard * bool :=
  if String.eqb status "inProgress" then
    (Some {| chat_statusText := getStatusText (phase_of state);
             chat_width := barWidth state;
             chat_found :=
               match foundCount state with
               | Some n => Some (n, plural n)
               | None => None
               end |},
     true)
  else if String.eqb status "complete" then (None, false)
  else (None, isProcessingInProgress).

(** The second [useEffect] (lines 85-106), as far as it changes anything:
    the flag after it. *)
Definition phaseEffect (state : RestaurantFinderAgentState)
    (isProcessingInProgress : bool) : bool :=
  if isPhase (phase_of state) "feedback_completed" then false
  else isProcessingInProgress.

(** All that the component puts on the screen for a state: the view of its
    body, and the card of the chat for a status of the agent. *)
Definition display (state : RestaurantFinderAgentState) (status : string)
    (isProcessingInProgress : bool) : View * option ChatCard :=
  (fst (render state isProcessingInProgress),
   fst (agentStateRender status state isProcessingInProgress)).

(** The leaf fields that the two render functions read, by their paths. *)
Definition displayed_fields : list string :=
  ["/status/phase"; "/search/location"; "/search/restaurants_found";
   "/search/restaurants"; "/processing/progress"; "/processing/recommendations";
   "/processing/inProgress"; "/processing/feedback"; "/ui/showRestaurants"].

(** The borders of the stage items, when the view is the progress panel:
    the stage display is a part of that view only. *)
Definition panel_borders (view : View) : option (list Look) :=
  match view with
  | ProgressPanel _ _ items _ => Some (map item_border items)
  | _ => None
  end.

Definition is_progress (view : View) : bool :=
  match view with
  | ProgressPanel _ _ _ _ => true
  | _ => false
  end.

Definition is_recommendations (view : View) : bool :=
  match view with
  | Recommendations _ _ _ _ _ => true
  | _ => false
  end.

(** The marks of a stage item say the same as its border: the circle has
    the look of the border, the check mark is there exactly when the border
    is green, and a caption exactly when it is blue. *)
Definition marks_agree (item : StageItem) : Prop :=
  item_circle item = item_border item /\
  (item_badge item = Check <-> item_border item = Green) /\
  (item_captions item <> [] <-> item_border item = Blue).

End FinderView.

(* ================================================================== *)
(** ** The earlier component                                           *)
(* ================================================================== *)

(** The second [RestaurantFinder] of the repository, with its
    [RestaurantCard], [RestaurantProcessStages], [RestaurantRecommendations]
    and [FeedbackPrompt]. *)
Module EarlierFinder.

Import RestaurantFinder.

(** *** FeedbackPrompt *)

(** What a handler of the prompt does: it calls [onSubmitFeedback] or sets
    the text of the input. *)
Inductive Effect :=
| OnSubmitFeedback (feedback : string)
| SetCustomFeedback (value : string).

(** [onClick] of the button of [option]. *)
Definition option_onClick (option : string) : list Effect :=
  [OnSubmitFeedback option].

(** [onChange] of the input. *)
Definition input_onChange (value : string) : list Effect :=
  [SetCustomFeedback value].

(** [onClick] of Submit. *)
Definition submit_onClick (customFeedback : string) : list Effect :=
  if JsString.ToBoolean (JsString.trim customFeedback)
  then [OnSubmitFeedback customFeedback; SetCustomFeedback EmptyString]
  else [].

(** [disabled] of the option buttons and of the input, and of Submit. *)
Definition option_disabled (isProcessing : bool) : bool := isProcessing.

Definition input_disabled (isProcessing : bool) : bool := isProcessing.

Definition submit_disabled (isProcessing : bool) (customFeedback : string) : bool :=
  isProcessing || negb (JsString.ToBoolean (JsString.trim customFeedback)).

(** What the user does with the prompt. *)
Inductive UserAction :=
| ClickOption (idx : nat)
| TypeText (value : string)
| ClickSubmit.

(** The handler that an action fires: none on a disabled control, none for
    a button that is not there. *)
Definition fired (options : list string) (isProcessing : bool)
    (customFeedback : string) (action : UserAction) : list Effect :=
  match action with
  | ClickOption idx =>
      match nth_error options idx with
      | Some option =>
          if option_disabled isProcessing then [] else option_onClick option
      | None => []
      end
  | TypeText value =>
      if input_disabled isProcessing then [] else input_onChange value
  | ClickSubmit =>
      if submit_disabled isProcessing customFeedback then []
      else submit_onClick customFeedback
  end.

(** The text of the input after the effects, and the feedback submitted. *)
Fixpoint after_effects (customFeedback : string) (effects : list Effect)
    : string * list string :=
  match effects with
  | [] => (customFeedback, [])
  | OnSubmitFeedback feedback :: rest =>
      let '(text, submitted) := after_effects customFeedback rest in
      (text, feedback :: submitted)
  | SetCustomFeedback value :: rest => after_effects value rest
  end.

(** A sequence of actions, the component rendered again after each. *)
Fixpoint interact (options : list string) (isProcessing : bool)
    (customFeedback : string) (actions : list UserAction)
    : string * list string :=
  match actions with
  | [] => (customFeedback, [])
  | action :: rest =>
      let '(text, submitted) :=
        after_effects customFeedback
          (fired options isProcessing customFeedback action) in
      let '(final, later) := interact options isProcessing text rest in
      (final, submitted ++ later)
  end.

(** *** RestaurantProcessStages: circles, marks and captions *)

Definition research_circle (phase : option string) : Look :=
  if isPhase phase "research_phase" || isPhase phase "searching_restaurants" then Blue
  else if isPhase phase "restaurants_found"
       || isPhase phase "recommendation_phase"
       || isPhase phase "generating_recommendations"
       || isPhase phase "completed" then Green
  else Grey.

Definition research_badge (phase : option string) : FinderView.Badge :=
  if isPhase phase "restaurants_found"
     || isPhase phase "recommendation_phase"
     || isPhase phase "generating_recommendations"
     || isPhase phase "completed" then FinderView.Check
  else FinderView.Numeral 1.

Definition research_captions (phase : option string) (location : string)
    : list string :=
  if isPhase phase "research_phase" || isPhase phase "searching_restaurants"
  then ["The Restaurant Research Specialist is searching in " +:+ location]
  else [].

Definition recommendation_circle (phase : option string) : Look :=
  if isPhase phase "recommendation_phase"
     || isPhase phase "generating_recommendations" then Blue
  else if isPhase phase "await_feedback"
       || isPhase phase "processing_feedback"
       || isPhase phase "completed" then Green
  else Grey.

Definition recommendation_badge (phase : option string) : FinderView.Badge :=
  if isPhase phase "await_feedback"
     || isPhase phase "processing_feedback"
     || isPhase phase "completed" then FinderView.Check
  else FinderView.Numeral 2.

Definition recommendation_captions (phase : option string) : list string :=
  if isPhase phase "recommendation_phase"
     || isPhase phase "generating_recommendations"
  then ["The Restaurant Recommendation Specialist is creating suggestions"]
  else [].

Definition feedback_circle (phase : option string) : Look :=
  if isPhase phase "await_feedback" || isPhase phase "processing_feedback" then Blue
  else if isPhase phase "completed" then Green
  else Grey.

Definition feedback_badge (phase : option string) : FinderView.Badge :=
  if isPhase phase "completed" then FinderView.Check else FinderView.Numeral 3.

Definition feedback_captions (phase : option string) : list string :=
  (if isPhase phase "processing_feedback"
   then ["The Recommendation Specialist is processing your feedback"] else [])
  ++ (if isPhase phase "await_feedback"
      then ["Awaiting your feedback on recommendations"] else []).

Definition RestaurantProcessStages (phase : option string) (location : string)
    : list FinderView.StageItem :=
  [ {| FinderView.item_border := ProcessStages.research_stage phase;
       FinderView.item_circle := research_circle phase;
       FinderView.item_badge := research_badge phase;
       FinderView.item_label := "Research Phase: Find Restaurants";
       FinderView.item_captions := research_captions phase location |};
    {| FinderView.item_border := ProcessStages.recommendation_stage phase;
       FinderView.item_circle := recommendation_circle phase;
       FinderView.item_badge := recommendation_badge phase;
       FinderView.item_label := "Recommendation Phase";
       FinderView.item_captions := recommendation_captions phase |};
    {| FinderView.item_border := ProcessStages.feedback_stage phase;
       FinderView.item_circle := feedback_circle phase;
       FinderView.item_badge := feedback_badge phase;
       FinderView.item_label := "Feedback Phase";
       FinderView.item_captions := feedback_captions phase |} ].

(** *** RestaurantCard and RestaurantRecommendations *)

(** The lines of a card after the name: the label and the value of each
    optional property that is there and not empty, and the link. *)
Record RestaurantCard := {
  card_name : string;
  card_lines : list (string * string);
  card_website : option string
}.

Definition line (label : string) (field : option string) : list (string * string) :=
  match FinderView.shown field with
  | Some value => [(label, value)]
  | None => []
  end.

Definition restaurantCard (restaurant : Restaurant) : RestaurantCard := {|
  card_name := restaurant_name restaurant;
  card_lines :=
    line "Cuisine:" (restaurant_cuisine restaurant)
    ++ line "Price:" (restaurant_priceRange restaurant)
    ++ line "Rating:" (restaurant_rating restaurant)
    ++ line "Address:" (restaurant_address restaurant);
  card_website := FinderView.shown (restaurant_url restaurant)
|}.

(** [restaurants && restaurants.map(...)] and [recommendations && ...]. *)
Definition RestaurantRecommendations
    (recommendations : option string) (restaurants : option (list Restaurant))
    : list RestaurantCard * option string :=
  (match restaurants with
   | Some restaurants => map restaurantCard restaurants
   | None => []
   end,
   FinderView.shown recommendations).

(** *** The component *)

(** The loading view: its text, the width of the bar when it is shown, the
    stage items and the count with the ending of "restaurant". *)
Inductive View :=
| Recommendations (location : option string)
    (cards : list RestaurantCard) (markdown : option string)
    (promptOptions : list string) (promptIsProcessing : bool)
| Loading (text : string) (bar : option FinderView.Width)
    (items : list FinderView.StageItem) (found : option (number * string))
| Ready (restaurants : option (list RestaurantCard)) (markdown : option string).

(** The text of the loading view (lines 686-692). *)
Definition loadingText (state : RestaurantFinderAgentState) : string :=
  let phase := FinderView.phase_of state in
  if isPhase phase "searching_restaurants"
  then "Searching for restaurants in " +:+ search_location (search state) +:+ "..."
  else if isPhase phase "restaurants_found"
  then "Analyzing restaurant options based on your preferences..."
  else if isPhase phase "generating_recommendations"
  then "Creating personalized recommendations for you..."
  else "Processing your request...".

(** [Math.max(5, progress * 100)], shown when [progress > 0]. *)
Definition loadingBar (state : RestaurantFinderAgentState)
    : option FinderView.Width :=
  let progress := processing_progress (processing state) in
  if bool_decide (0 < progress)%Qc
  then Some (FinderView.MaxFive (FinderView.TimesHundred progress))
  else None.

Definition foundLine (state : RestaurantFinderAgentState) : option (number * string) :=
  match FinderView.foundCount state with
  | Some n => Some (n, FinderView.plural n)
  | None => None
  end.

(** The body of the component after its hooks (lines 594-803), on the
    state and on [isSearchInProgress.current]. *)
Definition render (state : RestaurantFinderAgentState) (isSearchInProgress : bool)
    : View :=
  let phase := FinderView.phase_of state in
  if isPhase phase "completed"
     && JsString.present (processing_recommendations (processing state))
  then
    let '(cards, markdown) :=
      RestaurantRecommendations (processing_recommendations (processing state))
        (search_restaurants (search state)) in
    Recommendations
      (if JsString.ToBoolean (search_query (search state))
       then Some (search_location (search state)) else None)
      cards markdown
      ["More options"; "Different location"; "Other"] false
  else if negb (isPhase phase "completed")
          && (isSearchInProgress || processing_inProgress (processing state))
  then
    Loading (loadingText state) (loadingBar state)
      (RestaurantProcessStages phase (search_location (search state)))
      (foundLine state)
  else
    Ready
      (match search_restaurants (search state) with
       | Some restaurants =>
           if ui_showRestaurants (ui state) && bool_decide (0 < length restaurants)
           then Some (map restaurantCard restaurants)
           else None
       | None => None
       end)
      (FinderView.shown (processing_recommendations (processing state))).

Definition is_loading (view : View) : bool :=
  match view with
  | Loading _ _ _ _ => true
  | _ => false
  end.

Definition is_recommendations (view : View) : bool :=
  match view with
  | Recommendations _ _ _ _ _ => true
  | _ => false
  end.

End EarlierFinder.

(* ================================================================== *)
(** ** Regular expressions, as the [strong] component uses them        *)
(* ================================================================== *)

(** The [strong] override given to ReactMarkdown (RestaurantFinder.tsx,
    lines 566-596) styles a text as a rating when it holds the star U+2605
    or matches [/\d(\.\d)?\/5/], and otherwise as a restaurant name when it
    matches [/^[A-Z][\w\s'&,-]+$/] and is longer than three code units.  The
    star is not a code unit below 256, so a string of this development
    never holds it; the two patterns and the length are what is embedded
    here. *)
Module RegExp.

(** A pattern without groups to remember: a class of code units, a
    sequence, an alternative, a repetition. *)
Inductive Pattern :=
| Never
| Empty
| Class (member : ascii -> bool)
| Seq (first second : Pattern)
| Alt (one other : Pattern)
| Star (body : Pattern).

(** [r?] and [r+]. *)
Definition Opt (r : Pattern) : Pattern := Alt r Empty.

Definition Plus (r : Pattern) : Pattern := Seq r (Star r).

(** One given code unit. *)
Definition Unit (c : ascii) : Pattern := Class (Ascii.eqb c).

(** Any code unit. *)
Definition Any : Pattern := Class (fun _ => true).

(** Whether the pattern matches the empty string. *)
Fixpoint nullable (r : Pattern) : bool :=
  match r with
  | Never => false
  | Empty => true
  | Class _ => false
  | Seq first second => nullable first && nullable second
  | Alt one other => nullable one || nullable other
  | Star _ => true
  end.

(** What is left of the pattern after the code unit [c]. *)
Fixpoint after (c : ascii) (r : Pattern) : Pattern :=
  match r with
  | Never => Never
  | Empty => Never
  | Class member => if member c then Empty else Never
  | Seq first second =>
      if nullable first
      then Alt (Seq (after c first) second) (after c second)
      else Seq (after c first) second
  | Alt one other => Alt (after c one) (after c other)
  | Star body => Seq (after c body) (Star body)
  end.

(** Whether the pattern matches the whole of [s]: [/^r$/.test(s)]. *)
Fixpoint matches (r : Pattern) (s : string) : bool :=
  match s with
  | EmptyString => nullable r
  | String c rest => matches (after c r) rest
  end.

(** Whether the pattern matches somewhere in [s]: [/r/.test(s)]. *)
Definition test (r : Pattern) (s : string) : bool :=
  matches (Seq (Star Any) (Seq r (Star Any))) s.

(** The strings of a pattern. *)
Inductive denotes : Pattern -> string -> Prop :=
| denotes_Empty : denotes Empty EmptyString
| denotes_Class member c :
    member c = true -> denotes (Class member) (String c EmptyString)
| denotes_Seq first second a b :
    denotes first a -> denotes second b -> denotes (Seq first second) (a +:+ b)
| denotes_Alt_left one other a : denotes one a -> denotes (Alt one other) a
| denotes_Alt_right one other a : denotes other a -> denotes (Alt one other) a
| denotes_Star_nil body : denotes (Star body) EmptyString
| denotes_Star_more body a b :
    denotes body a -> denotes (Star body) b -> denotes (Star body) (a +:+ b).

(** The classes of the two patterns: [\d], [A-Z], [\w], [\s]. *)
Definition between (low high : nat) (c : ascii) : bool :=
  (low <=? nat_of_ascii c)%nat && (nat_of_ascii c <=? high)%nat.

Definition digit : ascii -> bool := between 48 57.

Definition upper : ascii -> bool := between 65 90.

Definition word (c : ascii) : bool :=
  between 65 90 c || between 97 122 c || digit c || Ascii.eqb c "_".

(** [\d(\.\d)?\/5]. *)
Definition rating : Pattern :=
  Seq (Class digit)
      (Seq (Opt (Seq (Unit ".") (Class digit)))
           (Seq (Unit "/") (Unit "5"))).

(** [[\w\s'&,-]]. *)
Definition name_unit (c : ascii) : bool :=
  word c || JsString.is_white_space c
  || Ascii.eqb c "'" || Ascii.eqb c "&" || Ascii.eqb c "," || Ascii.eqb c "-".

(** [[A-Z][\w\s'&,-]+], between [^] and [$]. *)
Definition name : Pattern := Seq (Class upper) (Plus (Class name_unit)).

(** The two tests of [strong] on the text of its children:
    [/\d(\.\d)?\/5/.test(text)], and
    [/^[A-Z][\w\s'&,-]+$/.test(text) && text.length > 3]. *)
Definition looks_like_rating (text : string) : bool := test rating text.

Definition looks_like_name (text : string) : bool :=
  matches name text && bool_decide (3 < String.length text).

(** [\d\/5]: the rating pattern without its optional group. *)
Definition digit_slash_five : Pattern :=
  Seq (Class digit) (Seq (Unit "/") (Unit "5")).

End RegExp.


(* ================================================================== *)
(** ** docs/human_in_the_loop_guide.md: the render function            *)
(* ================================================================== *)

(** [renderAndWaitForResponse] as the guide excerpts it (lines 150-175):
    no defaults, no test of [respond], and a click that gives the option
    itself to [respond].  A TypeError is [None]. *)
Module GuideRender.

(** A button of the excerpt: its label (the child of the [button]) and the
    value that its click gives to [respond]. *)
Record Button := {
  label : Js.Value;
  responds : Js.Value
}.

(** What the excerpt returns: the section with its heading (the child of
    the [h3]) and its buttons. *)
Inductive Element :=
| FeedbackSection (heading : Js.Value) (buttons : list Button).

(** [const { feedbackOptions, message } = args]: a TypeError on
    [undefined] and [null]. *)
Definition destructure (args : Js.Value) : option (Js.Value * Js.Value) :=
  match args with
  | Js.Undefined | Js.Null => None
  | _ =>
      Some (Js.optional_member args "feedbackOptions",
            Js.optional_member args "message")
  end.

(** [<button onClick={() => respond(option)}>{option}</button>]. *)
Definition button (option : Js.Value) : Button :=
  {| label := option; responds := option |}.

(** [feedbackOptions.map(...)]: one button for each element of an array.
    No other value of [Js.Value] has a [map] that can be called, so the
    call is a TypeError on each of them. *)
Definition map_buttons (feedbackOptions : Js.Value) : option (list Button) :=
  match feedbackOptions with
  | Js.Array elems => Some (map button elems)
  | _ => None
  end.

Definition renderAndWaitForResponse (args : Js.Value) : option Element :=
  '(feedbackOptions, message) ← destructure args;
  buttons ← map_buttons feedbackOptions;
  Some (FeedbackSection
          (Js.or message (Js.Str "How do you feel about these recommendations?"))
          buttons).

End GuideRender.

(* ================================================================== *)
(** * Properties                                                       *)
(* ================================================================== *)

(** ** The feedback click: what it changes *)


(** The click calls [respond] once, after the state update, with the JSON
    string. *)
Lemma onClick_responds (state : RestaurantFinderAgentState) (option : string) :
  RestaurantFinder.responded (RestaurantFinder.onClick state option)
  = Some (RestaurantFinder.feedbackJsonString state option).
Proof. reflexivity. Qed.

(** Every field is reached by a path of its own. *)
Lemma path_determines_value_type {A B} (f : Fields.Field A) (g : Fields.Field B) :
  Fields.path f = Fields.path g -> A = B.
Proof. destruct f, g; simpl; intros H; first [reflexivity | discriminate H]. Qed.

(** C10.  When a feedback option button is clicked, the state update done
    before [respond] is called sets [processing.inProgress] to true and
    [status.phase] to [processing_feedback], and every other field of the
    agent state keeps its value: the whole [search] and [ui] sections, the
    other fields of [processing], [status.error] and [status.timestamp]. *)
Theorem feedback_click_changes_only_inProgress_and_phase
    (state : RestaurantFinderAgentState) (option : string) :
  let next :=
    RestaurantFinder.state_before_respond
      (RestaurantFinder.onClick state option) state in
  processing_inProgress (processing next) = true /\
  status_phase (status next) = Phase.processing_feedback /\
  search next = search state /\
  ui next = ui state /\
  status_error (status next) = status_error (status state) /\
  status_timestamp (status next) = status_timestamp (status state) /\
  processing_progress (processing next) = processing_progress (processing state) /\
  processing_phases (processing next) = processing_phases (processing state) /\
  processing_currentPhase (processing next)
    = processing_currentPhase (processing state) /\
  processing_recommendations (processing next)
    = processing_recommendations (processing state) /\
  processing_completed (processing next) = processing_completed (processing state) /\
  processing_feedback (processing next) = processing_feedback (processing state) /\
  (forall A (f : Fields.Field A),
      Fields.path f <> "/processing/inProgress" ->
      Fields.path f <> "/status/phase" ->
      Fields.get f next = Fields.get f state).
Proof.
  simpl. repeat split.
  intros A f Hprogress Hphase.
  destruct f; simpl in *; first [reflexivity | congruence].
Qed.

(** On the initial state the click leaves a state that differs from it in
    exactly these two fields. *)
Example feedback_click_on_initialState :
  let next :=
    RestaurantFinder.state_before_respond
      (RestaurantFinder.onClick RestaurantFinder.initialState "More options")
      RestaurantFinder.initialState in
  status_phase (status next) = Phase.processing_feedback /\
  status_phase (status RestaurantFinder.initialState) = Phase.idle /\
  processing_inProgress (processing next) = true /\
  processing_inProgress (processing RestaurantFinder.initialState) = false /\
  search next = search RestaurantFinder.initialState /\
  ui next = ui RestaurantFinder.initialState.
Proof. repeat split. Qed.

(** ** The render function of provideFeedback *)

Section Render.

Context {R : Type}.

Lemma render_without_respond (args : Js.Value) :
  RestaurantFinder.renderAndWaitForResponse args (@None R)
  = RestaurantFinder.Placeholder "Loading feedback options...".
Proof. unfold RestaurantFinder.renderAndWaitForResponse. reflexivity. Qed.

(** With [respond], the heading is the message when it is truthy and the
    default otherwise, and the buttons are the elements of the array when
    [feedbackOptions] is one and the five defaults otherwise. *)
Lemma render_with_respond (args : Js.Value) (respond : R) :
  RestaurantFinder.renderAndWaitForResponse args (Some respond)
  = RestaurantFinder.FeedbackSection
      (if Js.ToBoolean (Js.optional_member args "message")
       then Js.optional_member args "message"
       else Js.Str RestaurantFinder.defaultMessage)
      (if Js.isArray (Js.optional_member args "feedbackOptions")
       then RestaurantFinder.array_elements (Js.optional_member args "feedbackOptions")
       else map Js.Str RestaurantFinder.defaultFeedbackOptions).
Proof.
  unfold RestaurantFinder.renderAndWaitForResponse, Js.or.
  destruct (Js.isArray (Js.optional_member args "feedbackOptions")); simpl;
    destruct (Js.ToBoolean (Js.optional_member args "message")) eqn:Hm; simpl;
    rewrite ?Hm; reflexivity.
Qed.

End Render.

(** C9.  The render function of provideFeedback returns an element for
    every [args] and every [respond]: without [respond] the loading
    placeholder and no buttons; with it the feedback section, whose option
    list is exactly the five built-in defaults when [args.feedbackOptions]
    is not an array (and the elements of the array when it is one), and
    whose heading is "How do you feel about these recommendations?" when
    [args.message] is absent or falsy (and the message otherwise). *)
Theorem renderAndWaitForResponse_total
    (R : Type) (args : Js.Value) (respond : option R) :
  (respond = None ->
     RestaurantFinder.renderAndWaitForResponse args respond
     = RestaurantFinder.Placeholder "Loading feedback options...") /\
  (forall r, respond = Some r ->
     exists heading buttons,
       RestaurantFinder.renderAndWaitForResponse args respond
       = RestaurantFinder.FeedbackSection heading buttons /\
       (Js.isArray (Js.optional_member args "feedbackOptions") = false ->
          buttons =
            [Js.Str "Thank you for the recommendations! These look perfect.";
             Js.Str "Can you suggest more restaurants with different cuisines?";
             Js.Str "I'm looking for more budget-friendly dining options.";
             Js.Str "I prefer upscale fine dining experiences. Any suggestions?";
             Js.Str "Are there any restaurants with unique dining experiences?"]) /\
       (forall elems,
          Js.optional_member args "feedbackOptions" = Js.Array elems ->
          buttons = elems) /\
       (Js.optional_member args "message" = Js.Undefined ->
          heading = Js.Str "How do you feel about these recommendations?") /\
       (Js.ToBoolean (Js.optional_member args "message") = false ->
          heading = Js.Str "How do you feel about these recommendations?") /\
       (Js.ToBoolean (Js.optional_member args "message") = true ->
          heading = Js.optional_member args "message")).
Proof.
  split.
  - intros ->. apply render_without_respond.
  - intros r ->. rewrite render_with_respond.
    eexists _, _. split; [reflexivity |].
    repeat split.
    + intros ->. reflexivity.
    + intros elems ->. reflexivity.
    + intros ->. reflexivity.
    + intros ->. reflexivity.
    + intros ->. reflexivity.
Qed.

(** The cases the claim names, on concrete arguments: no arguments at all,
    arguments of the wrong shape, and a call before [respond] exists. *)
Example render_undefined_args :
  RestaurantFinder.renderAndWaitForResponse Js.Undefined (Some tt)
  = RestaurantFinder.FeedbackSection
      (Js.Str "How do you feel about these recommendations?")
      (map Js.Str RestaurantFinder.defaultFeedbackOptions).
Proof.
  destruct (renderAndWaitForResponse_total unit Js.Undefined (Some tt))
    as [_ H].
  destruct (H tt eq_refl) as (heading & buttons & -> & Hb & _ & Hh & _ & _).
  rewrite (Hb eq_refl), (Hh eq_refl). reflexivity.
Defined.

Example render_malformed_args :
  RestaurantFinder.renderAndWaitForResponse
    (Js.Object [("feedbackOptions", Js.Str "yes"); ("message", Js.Number 0%Qc)])
    (Some tt)
  = RestaurantFinder.FeedbackSection
      (Js.Str "How do you feel about these recommendations?")
      (map Js.Str RestaurantFinder.defaultFeedbackOptions).
Proof. reflexivity. Qed.

Example render_given_args :
  RestaurantFinder.renderAndWaitForResponse
    (Js.Object [("feedbackOptions", Js.Array [Js.Str "More"; Js.Str "Fewer"]);
                ("message", Js.Str "Well?")])
    (Some tt)
  = RestaurantFinder.FeedbackSection (Js.Str "Well?") [Js.Str "More"; Js.Str "Fewer"].
Proof. reflexivity. Qed.

Example render_before_respond :
  RestaurantFinder.renderAndWaitForResponse
    (Js.Object [("feedbackOptions", Js.Array [Js.Str "More"])]) (@None unit)
  = RestaurantFinder.Placeholder "Loading feedback options...".
Proof. reflexivity. Qed.

(** ** JSON.stringify and back *)

Lemma append_nil_l (b : string) : EmptyString +:+ b = b.
Proof. reflexivity. Qed.

Lemma append_cons (x : ascii) (a b : string) :
  String x a +:+ b = String x (a +:+ b).
Proof. reflexivity. Qed.

Lemma append_assoc (a b c : string) : (a +:+ b) +:+ c = a +:+ (b +:+ c).
Proof.
  induction a as [| x a IH]; [reflexivity |].
  rewrite !append_cons. f_equal. exact IH.
Qed.

Lemma length_append (a b : string) :
  String.length (a +:+ b) = String.length a + String.length b.
Proof.
  induction a as [| x a IH]; [reflexivity |].
  rewrite append_cons. simpl. now rewrite IH.
Qed.

(** An escape is never shorter than the character it stands for. *)
Lemma quote_unit_length (c : ascii) : 1 <= String.length (JSON.quote_unit c).
Proof. destruct c as [[] [] [] [] [] [] [] []]; vm_compute; lia. Qed.

Lemma quote_units_length (s : string) :
  String.length s <= String.length (JSON.quote_units s).
Proof.
  induction s as [| c s IH]; [reflexivity |].
  cbn [JSON.quote_units]. rewrite length_append.
  pose proof (quote_unit_length c). simpl. lia.
Qed.

Lemma QuoteJSONString_length (s : string) :
  String.length s + 2 <= String.length (JSON.QuoteJSONString s).
Proof.
  unfold JSON.QuoteJSONString. simpl. rewrite length_append.
  pose proof (quote_units_length s). simpl. lia.
Qed.

(** Reading an escape gives the character back, whatever follows. *)
Lemma unquote_quote_unit (c : ascii) (tail : string) :
  JSON.unquote_units (JSON.quote_unit c +:+ tail)
  = JSON.prepend (Some c) (JSON.unquote_units tail).
Proof. destruct c as [[] [] [] [] [] [] [] []]; reflexivity. Qed.

Lemma unquote_quote_units (s tail : string) :
  JSON.unquote_units (JSON.quote_units s +:+ String JSON.dquote tail)
  = Some (s, tail).
Proof.
  induction s as [| c s IH]; [reflexivity |].
  cbn [JSON.quote_units].
  rewrite append_assoc, unquote_quote_unit, IH. reflexivity.
Qed.

Lemma parse_string_QuoteJSONString (s tail : string) :
  JSON.parse_string (JSON.QuoteJSONString s +:+ tail) = Some (s, tail).
Proof.
  unfold JSON.QuoteJSONString, JSON.parse_string. rewrite append_cons.
  rewrite Ascii.eqb_refl, append_assoc, append_cons.
  apply unquote_quote_units.
Qed.

Lemma expect_head (c : ascii) (s : string) :
  JSON.expect c (String c s) = Some s.
Proof. unfold JSON.expect. now rewrite Ascii.eqb_refl. Qed.

(** Parsing the text of an object of two string members gives the members
    back. *)
Lemma parse_stringify_members (k1 v1 k2 v2 : string) :
  JSON.parse_two_members (JSON.stringify_members [(k1, v1); (k2, v2)])
  = Some ((k1, v1), (k2, v2)).
Proof.
  unfold JSON.stringify_members, JSON.parse_two_members.
  cbn [map String.concat fst snd].
  rewrite !append_assoc, !append_cons, !append_nil_l.
  repeat (first [rewrite expect_head | rewrite parse_string_QuoteJSONString];
          cbn [mbind option_bind]).
  reflexivity.
Qed.

(** A quote, a backslash, a line feed and a control character without a
    short escape, quoted and read back. *)
Example QuoteJSONString_escapes :
  let text :=
    String JSON.dquote
      (String "\"%char (String "010"%char (String "001"%char "I'm"))) in
  JSON.QuoteJSONString text
  = String JSON.dquote
      (String "\"%char (String JSON.dquote ("\\\n\u0001I'm" +:+ String JSON.dquote EmptyString))) /\
  JSON.parse_string (JSON.QuoteJSONString text) = Some (text, EmptyString).
Proof. split; vm_compute; reflexivity. Qed.

(** ** The answer the UI consumer returns *)

(** [state?.search?.location || EmptyString] is the location. *)
Lemma originalLocation_is_location (state : RestaurantFinderAgentState) :
  RestaurantFinder.originalLocation state = search_location (search state).
Proof.
  unfold RestaurantFinder.originalLocation.
  destruct (String.eqb_spec (search_location (search state)) EmptyString) as [-> | _];
    reflexivity.
Qed.

Lemma feedbackJsonString_text (state : RestaurantFinderAgentState) (option : string) :
  RestaurantFinder.feedbackJsonString state option
  = "{" +:+ JSON.in_quotes "feedbackText" +:+ ":" +:+ JSON.QuoteJSONString option
    +:+ "," +:+ JSON.in_quotes "originalLocation" +:+ ":"
    +:+ JSON.QuoteJSONString (search_location (search state)) +:+ "}".
Proof.
  unfold RestaurantFinder.feedbackJsonString, JSON.stringify_members.
  rewrite originalLocation_is_location.
  cbn [map String.concat fst snd].
  rewrite !append_assoc. reflexivity.
Qed.

Lemma feedbackJsonString_longer (state : RestaurantFinderAgentState) (option : string) :
  String.length option < String.length (RestaurantFinder.feedbackJsonString state option).
Proof.
  rewrite feedbackJsonString_text, !length_append.
  pose proof (QuoteJSONString_length option). lia.
Qed.

(** The claim as it is written fails.  A state at the feedback prompt, for
    a search in Chicago; the user clicks the first of the default options.
    The answer is a JSON object, not the text of the option, so the
    [feedback] field of the request that carries the answer is not the
    chosen text. *)
Lemma answer_is_not_the_chosen_text :
  let state :=
    Fields.set Fields.search_location_f "Chicago"
      (Fields.set Fields.status_phase_f Phase.await_feedback
         RestaurantFinder.initialState) in
  let option := "Thank you for the recommendations! These look perfect." in
  let answer :=
    "{" +:+ JSON.in_quotes "feedbackText" +:+ ":" +:+ JSON.in_quotes option
    +:+ "," +:+ JSON.in_quotes "originalLocation" +:+ ":"
    +:+ JSON.in_quotes "Chicago" +:+ "}" in
  nth_error RestaurantFinder.defaultFeedbackOptions 0 = Some option /\
  RestaurantFinder.responded (RestaurantFinder.onClick state option) = Some answer /\
  Adapter.feedback (Adapter.answer_request "t1" "r2" [] answer) = Some answer /\
  Adapter.feedback (Adapter.answer_request "t1" "r2" [] answer) <> Some option.
Proof. vm_compute. repeat split. discriminate. Qed.

(** C2, as amended.  When the user chooses a feedback option, the answer
    the component gives to [respond] is the JSON text of the object with
    [feedbackText], the chosen text, and [originalLocation],
    [search.location] of the state.  The request that returns it carries
    the same thread_id and this JSON text in its [feedback] field; the
    chosen text is what parsing the field gives as [feedbackText], and the
    field itself is never equal to the chosen text. *)
Theorem answer_carries_the_chosen_text_in_json
    (state : RestaurantFinderAgentState) (option : string)
    (thread run : string) (history : list Adapter.Message) :
  let answer := RestaurantFinder.feedbackJsonString state option in
  let request := Adapter.answer_request thread run history answer in
  RestaurantFinder.responded (RestaurantFinder.onClick state option) = Some answer /\
  Adapter.thread_id request = thread /\
  Adapter.feedback request = Some answer /\
  answer
  = "{" +:+ JSON.in_quotes "feedbackText" +:+ ":" +:+ JSON.QuoteJSONString option
    +:+ "," +:+ JSON.in_quotes "originalLocation" +:+ ":"
    +:+ JSON.QuoteJSONString (search_location (search state)) +:+ "}" /\
  JSON.parse_two_members answer
  = Some (("feedbackText", option),
          ("originalLocation", search_location (search state))) /\
  answer <> option.
Proof.
  cbv zeta. repeat split.
  - apply feedbackJsonString_text.
  - unfold RestaurantFinder.feedbackJsonString.
    rewrite parse_stringify_members, originalLocation_is_location. reflexivity.
  - intros Heq. pose proof (feedbackJsonString_longer state option) as Hlen.
    rewrite Heq in Hlen. lia.
Qed.

(** ** The phases of [status.phase] and the edges of section 4.1 *)

Lemma Phase_all_complete (p : Phase.t) : In p Phase.all.
Proof. destruct p; simpl; tauto. Qed.

Lemma Phase_literal_inj (p q : Phase.t) :
  Phase.literal p = Phase.literal q -> p = q.
Proof. destruct p, q; simpl; intros H; first [reflexivity | discriminate H]. Qed.

(** A name the type does not hold is not recognised: the default text and
    three grey stages. *)
Lemma unknown_name_is_not_recognised (name : string) :
  ~ In name (map Phase.literal Phase.all) ->
  RestaurantFinder.getStatusText (Some name) = "Ready to assist" /\
  RestaurantFinder.research_stage (Some name) = RestaurantFinder.Grey /\
  RestaurantFinder.recommendation_stage (Some name) = RestaurantFinder.Grey /\
  RestaurantFinder.feedback_stage (Some name) = RestaurantFinder.Grey.
Proof.
  intros Hout.
  assert (Hne : forall p, String.eqb name (Phase.literal p) = false).
  { intros p. apply String.eqb_neq. intros ->. apply Hout, in_map, Phase_all_complete. }
  pose proof (Hne Phase.initialized) as H1.
  pose proof (Hne Phase.searching_restaurants) as H2.
  pose proof (Hne Phase.restaurants_found) as H3.
  pose proof (Hne Phase.presenting_recommendations) as H4.
  pose proof (Hne Phase.await_feedback) as H5.
  pose proof (Hne Phase.processing_feedback) as H6.
  pose proof (Hne Phase.completed) as H7.
  pose proof (Hne Phase.feedback_completed) as H8.
  cbn [Phase.literal] in *.
  unfold RestaurantFinder.getStatusText, RestaurantFinder.research_stage,
    RestaurantFinder.recommendation_stage, RestaurantFinder.feedback_stage,
    RestaurantFinder.isPhase.
  rewrite H1, H2, H3, H4, H5, H6, H7, H8. repeat split.
Qed.

(** The earlier stage display was written for other phase names: on the
    phases of the type it goes back from [restaurants_found] to
    [presenting_recommendations], and it shows [feedback_completed] as if
    nothing had happened. *)
Remark earlier_stage_display_goes_back :
  ProcessStages.research_stage (RunPhases.observed Phase.restaurants_found)
  = RestaurantFinder.Green /\
  ProcessStages.research_stage (RunPhases.observed Phase.presenting_recommendations)
  = RestaurantFinder.Grey /\
  ProcessStages.research_stage (RunPhases.observed Phase.feedback_completed)
  = RestaurantFinder.Grey /\
  ProcessStages.feedback_stage (RunPhases.observed Phase.feedback_completed)
  = RestaurantFinder.Grey.
Proof. repeat split. Qed.

(** The stage display of RestaurantFinder.tsx is written for the order of
    the chain: along a step of the chain no stage goes back. *)
Lemma stage_display_never_goes_back (p q : Phase.t) :
  In (RunPhases.state_of q) (RunPhases.successors (RunPhases.state_of p)) ->
  RunPhases.not_back (RestaurantFinder.research_stage (RunPhases.observed p))
                     (RestaurantFinder.research_stage (RunPhases.observed q)) /\
  RunPhases.not_back (RestaurantFinder.recommendation_stage (RunPhases.observed p))
                     (RestaurantFinder.recommendation_stage (RunPhases.observed q)) /\
  RunPhases.not_back (RestaurantFinder.feedback_stage (RunPhases.observed p))
                     (RestaurantFinder.feedback_stage (RunPhases.observed q)).
Proof.
  unfold RunPhases.not_back.
  destruct p, q; simpl; intros H;
    repeat (destruct H as [H | H]; [try discriminate H |]);
    try contradiction; vm_compute; lia.
Qed.


(** The step to [error] leaves every state that is not terminal, and no
    other. *)
Lemma edge_to_error (s : RunPhases.State) :
  RunPhases.edge s RunPhases.error <-> RunPhases.terminal s = false.
Proof.
  unfold RunPhases.edge. split.
  - intros [H | [H _]]; [| exact H].
    destruct s; simpl in H;
      repeat (destruct H as [H | H]; [discriminate H |]); contradiction.
  - intros H. right. split; [exact H | reflexivity].
Qed.



(** ** The Session Registry: take consumes the entry *)

Section RegistryFacts.

Import SessionRegistry.

Lemma take_found (thread_id : string) (reg : Registry) (entry : Entry) :
  reg !! thread_id = Some entry ->
  take thread_id reg = inr (entry_data entry, delete thread_id reg).
Proof. intros H. unfold take. now rewrite H. Qed.

Lemma take_absent (thread_id : string) (reg : Registry) :
  reg !! thread_id = None <-> take thread_id reg = inl NotFound.
Proof.
  unfold take. destruct (reg !! thread_id); split; intros H;
    first [reflexivity | discriminate H].
Qed.

Lemma take_deletes (thread_id : string) (reg reg' : Registry) (data : PendingFeedback) :
  take thread_id reg = inr (data, reg') ->
  reg' = delete thread_id reg /\
  exists entry, reg !! thread_id = Some entry /\ entry_data entry = data.
Proof.
  unfold take. destruct (reg !! thread_id) as [entry |] eqn:Hl; intros H;
    [| discriminate H].
  injection H as <- <-. split; [reflexivity | eauto].
Qed.

(** A call that does not register [thread_id] does not make it present. *)
Lemma after_call_keeps_absent (thread_id : string) (c : Call) (reg : Registry) :
  registers thread_id c = false ->
  reg !! thread_id = None ->
  after_call c reg !! thread_id = None.
Proof.
  intros Hc Habs. destruct c as [now overwrite t data | t | now t after]; simpl in *.
  - apply String.eqb_neq in Hc. unfold register.
    destruct (reg !! t); [destruct overwrite |]; simpl;
      rewrite ?lookup_insert_ne by exact Hc; exact Habs.
  - unfold take. destruct (reg !! t); simpl; [| exact Habs].
    rewrite lookup_delete. case_decide; [reflexivity | exact Habs].
  - unfold expire. destruct (reg !! t) as [entry |]; [| exact Habs].
    destruct (entry_registered_at entry + after <? now)%Z; [| exact Habs].
    rewrite lookup_delete. case_decide; [reflexivity | exact Habs].
Qed.

Lemma after_calls_keep_absent (thread_id : string) (calls : list Call) (reg : Registry) :
  Forall (fun c => registers thread_id c = false) calls ->
  reg !! thread_id = None ->
  after_calls calls reg !! thread_id = None.
Proof.
  intros Hcalls. revert reg.
  induction Hcalls as [| c calls Hc _ IH]; intros reg Habs; [exact Habs |].
  simpl. apply IH. now apply after_call_keeps_absent.
Qed.

(** A registration makes the thread present again: the second take of the
    claim fails only as long as nothing registers in between. *)
Lemma take_after_register (now : Z) (overwrite : bool) (thread_id : string)
    (data : PendingFeedback) (reg : Registry) :
  reg !! thread_id = None ->
  exists reg',
    register now overwrite thread_id data reg = inr reg' /\
    take thread_id reg' = inr (data, delete thread_id reg').
Proof.
  intros Habs. unfold register. rewrite Habs. eexists. split; [reflexivity |].
  unfold take. rewrite lookup_insert_eq. reflexivity.
Qed.

End RegistryFacts.

(** C7.  [take(thread_id)] on the Session Registry succeeds at most once:
    after a successful take the entry is deleted, so a second take of the
    same thread_id returns NotFound, at once and after any calls on the
    registry that do not register that thread_id again. *)
Theorem take_succeeds_at_most_once
    (thread_id : string) (reg reg' : gmap string SessionRegistry.Entry)
    (data : SessionRegistry.PendingFeedback) :
  SessionRegistry.take thread_id reg = inr (data, reg') ->
  SessionRegistry.take thread_id reg' = inl SessionRegistry.NotFound /\
  reg' !! thread_id = None /\
  (forall calls : list SessionRegistry.Call,
      Forall (fun c => SessionRegistry.registers thread_id c = false) calls ->
      SessionRegistry.take thread_id (SessionRegistry.after_calls calls reg')
      = inl SessionRegistry.NotFound).
Proof.
  intros Htake. apply take_deletes in Htake as [-> _].
  assert (Habs : delete thread_id reg !! thread_id = None)
    by apply lookup_delete_eq.
  split; [now apply take_absent |].
  split; [exact Habs |].
  intros calls Hcalls. apply take_absent.
  now apply after_calls_keep_absent.
Qed.

(** A registry with one suspended thread: the first take returns its data,
    the second NotFound, also after another thread was registered, taken
    and swept. *)
Lemma take_succeeds_at_most_once_witness :
  let data := {|
    SessionRegistry.pending_thread_id := "t1";
    SessionRegistry.prior_recommendation := "Le Bernardin";
    SessionRegistry.prior_restaurants := [];
    SessionRegistry.pending_feedbackOptions := ["More options"] |} in
  let entry := {|
    SessionRegistry.entry_data := data;
    SessionRegistry.entry_registered_at := 0 |} in
  let reg : gmap string SessionRegistry.Entry := <["t1" := entry]> ∅ in
  SessionRegistry.take "t1" reg = inr (data, delete "t1" reg) /\
  SessionRegistry.take "t1" (delete "t1" reg) = inl SessionRegistry.NotFound /\
  SessionRegistry.take "t1"
    (SessionRegistry.after_calls
       [SessionRegistry.Register 5 false "t2" data;
        SessionRegistry.Take "t2";
        SessionRegistry.Expire 100 "t1" 60]
       (delete "t1" reg))
  = inl SessionRegistry.NotFound.
Proof.
  cbv zeta.
  match goal with |- ?first /\ _ => assert (Hfirst : first) end.
  { unfold SessionRegistry.take. rewrite lookup_insert_eq. reflexivity. }
  split; [exact Hfirst |].
  destruct (take_succeeds_at_most_once _ _ _ _ Hfirst) as (Hsecond & _ & Hlater).
  split; [exact Hsecond |].
  apply Hlater. repeat constructor.
Defined.

(** ** The Patch Engine: a delta rebuilds the new document *)

Section PatchFacts.

Import Fields PatchEngine.

Lemma apply_ops_app (a b : list Op) (d : StateDocument) :
  apply_ops (a ++ b) d = apply_ops a d ≫= apply_ops b.
Proof.
  revert d. induction a as [| op a IH]; intros d; [reflexivity |].
  simpl. destruct (apply_op op d); [apply IH | reflexivity].
Qed.

Lemma set_get_same {A} (f : Field A) (d : StateDocument) :
  set f (get f d) d = d.
Proof. destruct d as [[] [] [] []]; destruct f; reflexivity. Qed.

Lemma get_set_same {A} (f : Field A) (v : A) (d : StateDocument) :
  get f (set f v d) = v.
Proof. destruct f; reflexivity. Qed.

(** Whether or not the value changed, the delta of a field leaves the new
    value in the field. *)
Lemma apply_diff_field {A} `{EqDecision A}
    (f : Field A) (old new d : StateDocument) :
  get f d = get f old ->
  apply_ops (diff_field f old new) d = Some (set f (get f new) d).
Proof.
  intros Hd. unfold diff_field.
  destruct (decide (get f old = get f new)) as [He | _]; [| reflexivity].
  simpl. rewrite <- He, <- Hd, set_get_same. reflexivity.
Qed.

Lemma apply_diff_counter (f : Field number) (old new d : StateDocument) :
  get f d = get f old ->
  apply_ops (diff_counter f old new) d = Some (set f (get f new) d).
Proof.
  intros Hd. unfold diff_counter.
  destruct (decide (get f old = get f new)) as [He | _].
  - simpl. rewrite <- He, <- Hd, set_get_same. reflexivity.
  - destruct (decide (get f old < get f new)%Qc); [| reflexivity].
    simpl. rewrite Hd.
    replace (get f old + (get f new - get f old))%Qc with (get f new) by ring.
    reflexivity.
Qed.

Lemma appended_spec (old new added : list Restaurant) :
  appended old new = Some added <-> new = old ++ added.
Proof.
  revert new. induction old as [| x old IH]; intros new; simpl.
  - split; [intros H; now inversion H | now intros ->].
  - destruct new as [| y new]; [split; intros H; discriminate H |].
    destruct (decide (x = y)) as [-> | Hne].
    + rewrite IH. split; [now intros -> | intros H; now inversion H].
    + split; [intros H; discriminate H |].
      intros H. simpl in H. injection H as Hyx _. congruence.
Qed.

Lemma apply_appends (added l : list Restaurant) (d : StateDocument) :
  search_restaurants (search d) = Some l ->
  apply_ops (map AppendRestaurant added) d
  = Some (set search_restaurants_f (Some (l ++ added)) d).
Proof.
  revert l d. induction added as [| r added IH]; intros l d Hl.
  - simpl. rewrite app_nil_r, <- Hl. f_equal. symmetry.
    apply (set_get_same search_restaurants_f).
  - simpl. rewrite Hl, (IH (l ++ [r])) by reflexivity.
    rewrite <- app_assoc. reflexivity.
Qed.

Lemma apply_diff_restaurants (old new d : StateDocument) :
  search_restaurants (search d) = search_restaurants (search old) ->
  apply_ops (diff_restaurants old new) d
  = Some (set search_restaurants_f (search_restaurants (search new)) d).
Proof.
  intros Hd. unfold diff_restaurants.
  destruct (search_restaurants (search old)) as [lo |] eqn:Ho,
           (search_restaurants (search new)) as [ln |] eqn:Hn; try reflexivity.
  - destruct (appended lo ln) as [added |] eqn:Ha; [| reflexivity].
    apply appended_spec in Ha. subst ln. now apply apply_appends.
  - simpl. rewrite <- Hd. f_equal. symmetry.
    apply (set_get_same search_restaurants_f).
Qed.

(** Applying the delta of two documents to the first gives the second. *)
Lemma apply_diff (old new : StateDocument) :
  apply_ops (diff old new) old = Some new.
Proof.
  unfold diff.
  repeat (rewrite apply_ops_app;
          first [ rewrite apply_diff_field by reflexivity
                | rewrite apply_diff_counter by reflexivity
                | rewrite apply_diff_restaurants by reflexivity ];
          cbn [mbind option_bind]).
  rewrite apply_diff_field by reflexivity.
  destruct new as [[] [] [] []]. reflexivity.
Qed.

(** The delta is a field-level diff.  Nothing changed: no operation. *)
Lemma diff_same (d : StateDocument) : diff d d = [].
Proof.
  assert (Happ : forall l : list Restaurant, appended l l = Some []).
  { intros l. apply appended_spec. now rewrite app_nil_r. }
  unfold diff, diff_field, diff_counter, diff_restaurants.
  repeat (rewrite decide_True by reflexivity).
  destruct (search_restaurants (search d)); [rewrite Happ |]; reflexivity.
Qed.

(** One restaurant added to a list gives one append, however long the list. *)
Lemma diff_one_restaurant_added
    (d : StateDocument) (l : list Restaurant) (r : Restaurant) :
  search_restaurants (search d) = Some l ->
  diff d (set search_restaurants_f (Some (l ++ [r])) d) = [AppendRestaurant r].
Proof.
  intros Hl.
  assert (Happ : appended l (l ++ [r]) = Some [r]) by now apply appended_spec.
  unfold diff, diff_field, diff_counter, diff_restaurants.
  cbn [get set with_search search status processing ui
       search_query search_location search_stage search_restaurants_found
       search_restaurants search_completed].
  repeat (rewrite decide_True by reflexivity).
  rewrite Hl, Happ. reflexivity.
Qed.

(** The delta of a run step that enters the search phase and learns the
    location: two set-field operations. *)
Example diff_of_located :
  let located :=
    set search_location_f "Chicago"
      (set status_phase_f Phase.searching_restaurants
         RestaurantFinder.initialState) in
  diff RestaurantFinder.initialState located
  = [SetField status_phase_f Phase.searching_restaurants;
     SetField search_location_f "Chicago"].
Proof. vm_compute. reflexivity. Qed.

(** A restaurant appended and the counter raised: one append, one increment. *)
Example diff_of_found :
  let found := {|
    restaurant_id := "r1"; restaurant_name := "Le Bernardin";
    restaurant_cuisine := None; restaurant_address := None;
    restaurant_priceRange := None; restaurant_rating := None;
    restaurant_url := None; restaurant_imageUrl := None |} in
  let listed :=
    set search_restaurants_found_f 1%Qc
      (set search_restaurants_f (Some [found]) RestaurantFinder.initialState) in
  diff RestaurantFinder.initialState listed
  = [Increment search_restaurants_found_f 1%Qc; AppendRestaurant found].
Proof.
  cbv zeta. unfold diff, diff_field, diff_counter, diff_restaurants.
  repeat (rewrite decide_True by reflexivity).
  rewrite decide_False by discriminate.
  rewrite decide_True by reflexivity.
  cbn. reflexivity.
Qed.

End PatchFacts.

(** The mirror after the events of a run from its document [emitted] on. *)
Lemma apply_deltas (message_id : string)
    (steps : list Adapter.Step) (emitted : RestaurantFinderAgentState) :
  Forall (fun s => Adapter.signal_only s = true) steps ->
  Adapter.apply_events (Adapter.deltas message_id emitted steps) emitted
  = Some (Adapter.final_state emitted steps).
Proof.
  intros Hsteps. revert emitted.
  induction Hsteps as [| step steps Hstep _ IH]; intros emitted; [reflexivity |].
  destruct step as [next | e]; simpl.
  - rewrite apply_diff. apply IH.
  - destruct e; simpl in Hstep; first [discriminate Hstep | apply IH].
Qed.

(** After its snapshot a run emits no other. *)
Lemma deltas_without_snapshot (message_id : string)
    (steps : list Adapter.Step) (emitted : RestaurantFinderAgentState) :
  Forall (fun s => Adapter.signal_only s = true) steps ->
  filter (fun e => Adapter.is_StateSnapshot e)
         (Adapter.deltas message_id emitted steps) = [].
Proof.
  intros Hsteps. revert emitted.
  induction Hsteps as [| step steps Hstep _ IH]; intros emitted; [reflexivity |].
  destruct step as [next | e]; simpl.
  - apply IH.
  - destruct e; simpl in Hstep; first [discriminate Hstep | apply IH].
Qed.

(** Events that carry no state leave the mirror as it is. *)
Lemma apply_events_without_state
    (prelude rest : list Adapter.Event) (mirror : RestaurantFinderAgentState) :
  Forall (fun e => Adapter.is_state_event e = false) prelude ->
  Adapter.apply_events (prelude ++ rest) mirror = Adapter.apply_events rest mirror /\
  filter (fun e => Adapter.is_StateSnapshot e) (prelude ++ rest)
  = filter (fun e => Adapter.is_StateSnapshot e) rest.
Proof.
  induction 1 as [| e prelude He _ [IHa IHf]]; [split; reflexivity |].
  destruct e; simpl in He; try discriminate He; split;
    first [exact IHa | simpl; exact IHf].
Qed.

(** C5.  For every run, the events hold one StateSnapshot, and applying in
    order that snapshot and then the run's StateDeltas, among whatever
    other events the run emits, to a document (the empty one, or any other:
    the snapshot replaces it) gives exactly the run's final internal
    StateDocument. *)
Theorem snapshot_then_deltas_rebuild_the_final_state
    (message_id : string) (prelude : list Adapter.Event)
    (start mirror : RestaurantFinderAgentState) (steps : list Adapter.Step) :
  Forall (fun e => Adapter.is_state_event e = false) prelude ->
  Forall (fun s => Adapter.signal_only s = true) steps ->
  filter (fun e => Adapter.is_StateSnapshot e)
         (Adapter.run_events message_id prelude start steps)
  = [Adapter.StateSnapshot message_id start] /\
  Adapter.apply_events (Adapter.run_events message_id prelude start steps) mirror
  = Some (Adapter.final_state start steps).
Proof.
  intros Hprelude Hsteps. unfold Adapter.run_events.
  destruct (apply_events_without_state prelude
              (Adapter.StateSnapshot message_id start
                 :: Adapter.deltas message_id start steps) mirror Hprelude)
    as [-> ->].
  split.
  - rewrite filter_cons_True by reflexivity.
    now rewrite deltas_without_snapshot.
  - simpl. now apply apply_deltas.
Qed.

(** A run on the initial state that learns the location, streams a text
    and then finds a restaurant: the mirror ends as the run's document. *)
Lemma snapshot_then_deltas_witness :
  let found := {|
    restaurant_id := "r1"; restaurant_name := "Le Bernardin";
    restaurant_cuisine := Some "French Seafood"; restaurant_address := None;
    restaurant_priceRange := None; restaurant_rating := None;
    restaurant_url := None; restaurant_imageUrl := None |} in
  let located :=
    Fields.set Fields.search_location_f "Chicago"
      (Fields.set Fields.status_phase_f Phase.searching_restaurants
         RestaurantFinder.initialState) in
  let listed :=
    Fields.set Fields.search_restaurants_found_f 1%Qc
      (Fields.set Fields.search_restaurants_f (Some [found]) located) in
  let steps :=
    [Adapter.Mutate located;
     Adapter.Signal (Adapter.TextMessageStart "m1");
     Adapter.Signal (Adapter.TextMessageContent "m1" "Looking in Chicago");
     Adapter.Signal (Adapter.TextMessageEnd "m1");
     Adapter.Mutate listed] in
  Forall (fun e => Adapter.is_state_event e = false) [Adapter.RunStarted "m1"] /\
  Forall (fun s => Adapter.signal_only s = true) steps /\
  Adapter.final_state RestaurantFinder.initialState steps = listed /\
  Adapter.apply_events
    (Adapter.run_events "m1" [Adapter.RunStarted "m1"]
       RestaurantFinder.initialState steps)
    RestaurantFinder.initialState
  = Some listed.
Proof.
  cbv zeta.
  match goal with
  | |- ?quiet /\ ?wf /\ _ =>
      assert (Hprelude : quiet) by (repeat constructor);
      assert (Hsteps : wf) by (repeat constructor)
  end.
  split; [exact Hprelude |].
  split; [exact Hsteps |].
  split; [reflexivity |].
  exact (proj2 (snapshot_then_deltas_rebuild_the_final_state
                  "m1" [Adapter.RunStarted "m1"]
                  RestaurantFinder.initialState RestaurantFinder.initialState
                  _ Hprelude Hsteps)).
Defined.

(** ** The stage display on every value of the phase *)

(** Case analysis on a phase that is any string: one case for each name
    that the two stage displays compare it with, and the case of a string
    that is none of them. *)
Ltac phase_name p name :=
  destruct (String.eqb_spec p name) as [-> | ?]; [vm_compute |].

Ltac phase_names p :=
  phase_name p "searching_restaurants";
  [| phase_name p "restaurants_found";
  [| phase_name p "presenting_recommendations";
  [| phase_name p "await_feedback";
  [| phase_name p "processing_feedback";
  [| phase_name p "completed";
  [| phase_name p "feedback_completed";
  [| phase_name p "research_phase";
  [| phase_name p "recommendation_phase";
  [| phase_name p "generating_recommendations";
  [| cbn ]]]]]]]]]].

Ltac unfold_stages :=
  unfold FinderView.stages, FinderView.research_item,
    FinderView.recommendation_item, FinderView.feedback_item,
    EarlierFinder.RestaurantProcessStages,
    FinderView.research_circle, FinderView.research_badge,
    FinderView.research_captions, FinderView.recommendation_circle,
    FinderView.recommendation_badge, FinderView.recommendation_captions,
    FinderView.feedback_circle, FinderView.feedback_badge,
    FinderView.feedback_captions,
    EarlierFinder.research_circle, EarlierFinder.research_badge,
    EarlierFinder.research_captions, EarlierFinder.recommendation_circle,
    EarlierFinder.recommendation_badge, EarlierFinder.recommendation_captions,
    EarlierFinder.feedback_circle, EarlierFinder.feedback_badge,
    EarlierFinder.feedback_captions,
    RestaurantFinder.research_stage, RestaurantFinder.recommendation_stage,
    RestaurantFinder.feedback_stage,
    ProcessStages.research_stage, ProcessStages.recommendation_stage,
    ProcessStages.feedback_stage, RestaurantFinder.isPhase.

(** In both components the class of the border, the class of the circle,
    the mark in the circle and the caption of a stage are four expressions
    written apart.  They agree on every phase, a string of any content or
    [undefined]: the circle has the colour of the border, the check mark
    stands in the circle exactly when the stage is green, and a caption is
    under the label exactly when the stage is blue. *)
Theorem stage_marks_agree (phase : option string) (location : string) :
  Forall FinderView.marks_agree (FinderView.stages phase location) /\
  Forall FinderView.marks_agree
         (EarlierFinder.RestaurantProcessStages phase location).
Proof.
  unfold FinderView.marks_agree. unfold_stages.
  destruct phase as [p |]; [phase_names p | cbn];
    (split; repeat constructor; cbn; try congruence; try tauto;
     try (intros; discriminate)).
Qed.

(** The three stages of RestaurantFinder.tsx fill from the top, on every
    phase, a string of any content or [undefined]: a stage is never further
    than the stage above it, a stage is blue only while every stage above
    it is green and every stage below it grey, so at most one stage is
    blue. *)
Theorem stages_fill_in_order (phase : option string) :
  RunPhases.look_rank (RestaurantFinder.feedback_stage phase)
    <= RunPhases.look_rank (RestaurantFinder.recommendation_stage phase)
    <= RunPhases.look_rank (RestaurantFinder.research_stage phase) /\
  (RestaurantFinder.research_stage phase = RestaurantFinder.Blue ->
   RestaurantFinder.recommendation_stage phase = RestaurantFinder.Grey /\
   RestaurantFinder.feedback_stage phase = RestaurantFinder.Grey) /\
  (RestaurantFinder.recommendation_stage phase = RestaurantFinder.Blue ->
   RestaurantFinder.research_stage phase = RestaurantFinder.Green /\
   RestaurantFinder.feedback_stage phase = RestaurantFinder.Grey) /\
  (RestaurantFinder.feedback_stage phase = RestaurantFinder.Blue ->
   RestaurantFinder.research_stage phase = RestaurantFinder.Green /\
   RestaurantFinder.recommendation_stage phase = RestaurantFinder.Green).
Proof.
  unfold RestaurantFinder.research_stage, RestaurantFinder.recommendation_stage,
    RestaurantFinder.feedback_stage, RestaurantFinder.isPhase.
  destruct phase as [p |]; [phase_names p | cbn];
    repeat split; try lia; congruence.
Qed.

(** ** Which view the component returns *)

(** The view of RestaurantFinder.tsx by phase.  For [completed] and
    [feedback_completed] it is the recommendations, whatever the flag
    [isProcessingInProgress] and [processing.inProgress] say; for
    [await_feedback] it is the progress panel, whatever they say; for every
    other phase it is the progress panel when one of the two is set and the
    ready view otherwise.  The flag is reset by a render at
    [feedback_completed], as by the effect on the phase, and by no other
    phase. *)
Theorem view_by_phase (state : RestaurantFinderAgentState) (flag : bool) :
  let phase := status_phase (status state) in
  let view := fst (FinderView.render state flag) in
  (phase = Phase.completed \/ phase = Phase.feedback_completed ->
   FinderView.is_recommendations view = true) /\
  (phase = Phase.await_feedback -> FinderView.is_progress view = true) /\
  (phase <> Phase.completed -> phase <> Phase.feedback_completed ->
   phase <> Phase.await_feedback ->
   view = if flag || processing_inProgress (processing state)
          then FinderView.ProgressPanel
                 (RestaurantFinder.getStatusText (FinderView.phase_of state))
                 (FinderView.barWidth state)
                 (FinderView.stages (FinderView.phase_of state)
                    (search_location (search state)))
                 (FinderView.foundCount state)
          else FinderView.Ready) /\
  snd (FinderView.render state flag)
  = (if bool_decide (phase = Phase.feedback_completed) then false else flag) /\
  FinderView.phaseEffect state flag
  = (if bool_decide (phase = Phase.feedback_completed) then false else flag).
Proof.
  cbv zeta.
  unfold FinderView.render, FinderView.phaseEffect, FinderView.phase_of.
  destruct (status_phase (status state)), flag,
    (processing_inProgress (processing state));
    cbn; repeat split; intros; try reflexivity; try congruence;
    repeat match goal with H : _ \/ _ |- _ => destruct H end; congruence.
Qed.

(** The click on a feedback option, then the render of the state it
    leaves: the component shows the progress panel with the text
    "Processing your feedback...", the first two stages finished and the
    third at work, for every state the click starts from, every option and
    whatever the flag says; the bar and the count are those of the state
    before the click. *)
Theorem click_shows_the_processing_panel
    (state : RestaurantFinderAgentState) (option : string) (flag : bool) :
  let next :=
    RestaurantFinder.state_before_respond
      (RestaurantFinder.onClick state option) state in
  let finished label := {|
    FinderView.item_border := RestaurantFinder.Green;
    FinderView.item_circle := RestaurantFinder.Green;
    FinderView.item_badge := FinderView.Check;
    FinderView.item_label := label;
    FinderView.item_captions := [] |} in
  FinderView.render next flag
  = (FinderView.ProgressPanel "Processing your feedback..."
       (FinderView.barWidth state)
       [ finished "Finding Restaurants"; finished "Creating Recommendations";
         {| FinderView.item_border := RestaurantFinder.Blue;
            FinderView.item_circle := RestaurantFinder.Blue;
            FinderView.item_badge := FinderView.Numeral 3;
            FinderView.item_label := "Feedback & Refinement";
            FinderView.item_captions := ["Waiting for your feedback"] |} ]
       (FinderView.foundCount state),
     flag).
Proof.
  cbv zeta. unfold RestaurantFinder.onClick.
  cbn [RestaurantFinder.state_before_respond].
  unfold FinderView.render, FinderView.phase_of,
    RestaurantFinder.processing_feedback_state.
  cbn [status status_phase processing processing_inProgress Phase.literal].
  destruct flag; reflexivity.
Qed.

(** The stage display where it is rendered.  At [completed] and
    [feedback_completed] the component returns the recommendations and no
    stage display; at [await_feedback] the display is rendered whatever the
    flags say, with the first two stages green and the third blue; at every
    other phase it is rendered when [isProcessingInProgress.current] or
    [processing.inProgress] is set, and its borders are then: three grey
    for [idle] and [initialized]; the first blue for
    [searching_restaurants]; the first green for [restaurants_found]; the
    first green and the second blue for [presenting_recommendations]; two
    green and the third blue for [processing_feedback]. *)
Theorem rendered_stage_display_by_phase
    (state : RestaurantFinderAgentState) (flag : bool) :
  let rendered (borders : list RestaurantFinder.Look) :=
    if flag || processing_inProgress (processing state)
    then Some borders else None in
  FinderView.panel_borders (fst (FinderView.render state flag))
  = match status_phase (status state) with
    | Phase.idle | Phase.initialized =>
        rendered [RestaurantFinder.Grey; RestaurantFinder.Grey;
                  RestaurantFinder.Grey]
    | Phase.searching_restaurants =>
        rendered [RestaurantFinder.Blue; RestaurantFinder.Grey;
                  RestaurantFinder.Grey]
    | Phase.restaurants_found =>
        rendered [RestaurantFinder.Green; RestaurantFinder.Grey;
                  RestaurantFinder.Grey]
    | Phase.presenting_recommendations =>
        rendered [RestaurantFinder.Green; RestaurantFinder.Blue;
                  RestaurantFinder.Grey]
    | Phase.await_feedback =>
        Some [RestaurantFinder.Green; RestaurantFinder.Green;
              RestaurantFinder.Blue]
    | Phase.processing_feedback =>
        rendered [RestaurantFinder.Green; RestaurantFinder.Green;
                  RestaurantFinder.Blue]
    | Phase.completed | Phase.feedback_completed => None
    end.
Proof.
  cbv zeta. unfold FinderView.render, FinderView.phase_of.
  destruct (status_phase (status state)), flag,
    (processing_inProgress (processing state));
    reflexivity.
Qed.

(** ** The fields that reach the screen *)

Lemma display_ignores_a_field_not_read
    {A : Type} (f : Fields.Field A) (v : A)
    (state : RestaurantFinderAgentState) (status : string) (flag : bool) :
  ~ In (Fields.path f) FinderView.displayed_fields ->
  FinderView.display (Fields.set f v state) status flag
  = FinderView.display state status flag.
Proof.
  intros Hout.
  destruct f; first [ reflexivity | exfalso; apply Hout; simpl; tauto ].
Qed.

(** Of the twenty-one leaf fields of the agent state, what the component
    puts on the screen (the view of its body and the card of the chat)
    depends on nine and on no other: [status.phase], [search.location],
    [search.restaurants_found], [search.restaurants],
    [processing.progress], [processing.recommendations],
    [processing.inProgress], [processing.feedback] and
    [ui.showRestaurants].  A value of [status.error], of [search.stage], of
    [ui.showFeedbackPrompt] or of [ui.feedbackOptions] is never shown. *)
Theorem display_depends_on_nine_fields {A : Type} (f : Fields.Field A) :
  (exists (v : A) (state : RestaurantFinderAgentState)
          (status : string) (flag : bool),
      FinderView.display (Fields.set f v state) status flag
      <> FinderView.display state status flag) <->
  In (Fields.path f)
     ["/status/phase"; "/search/location"; "/search/restaurants_found";
      "/search/restaurants"; "/processing/progress";
      "/processing/recommendations"; "/processing/inProgress";
      "/processing/feedback"; "/ui/showRestaurants"].
Proof.
  pose (completed :=
    Fields.set Fields.status_phase_f Phase.completed RestaurantFinder.initialState).
  pose (alinea := {|
    restaurant_id := "r1"; restaurant_name := "Alinea";
    restaurant_cuisine := None; restaurant_address := None;
    restaurant_priceRange := None; restaurant_rating := None;
    restaurant_url := None; restaurant_imageUrl := None |}).
  split.
  - intros (v & state & status & flag & Hdiff).
    destruct (decide (In (Fields.path f) FinderView.displayed_fields))
      as [Hin | Hout]; [exact Hin |].
    exfalso. apply Hdiff.
    apply display_ignores_a_field_not_read, Hout.
  - intros Hin.
    destruct f; simpl in Hin;
      try (exfalso;
           repeat (destruct Hin as [Hin | Hin]; [discriminate Hin |]);
           exact Hin).
    + exists Phase.completed, RestaurantFinder.initialState, "complete", false.
      discriminate.
    + exists "Chicago", completed, "complete", false. discriminate.
    + exists 1%Qc, RestaurantFinder.initialState, "complete", true. discriminate.
    + exists (Some [alinea]),
        (Fields.set Fields.ui_showRestaurants_f true completed), "complete", false.
      discriminate.
    + exists 1%Qc, RestaurantFinder.initialState, "complete", true.
      intros H. vm_compute in H. discriminate H.
    + exists (Some "text"), completed, "complete", false. discriminate.
    + exists true, RestaurantFinder.initialState, "complete", false. discriminate.
    + exists (Some (Some "text")),
        (Fields.set Fields.status_phase_f Phase.feedback_completed
           RestaurantFinder.initialState), "complete", false.
      discriminate.
    + exists true,
        (Fields.set Fields.search_restaurants_f (Some [alinea]) completed),
        "complete", false.
      discriminate.
Qed.

(** ** The earlier component and the present one *)

(** The views of the two components on the same state and flag.  The
    present component shows its progress panel where the earlier one shows
    its loading view, except at [feedback_completed], and at
    [await_feedback] in every case; it shows the recommendations where the
    earlier one does, and also at [completed] without a text of
    recommendations and at [feedback_completed]. *)
Theorem current_and_earlier_views
    (state : RestaurantFinderAgentState) (flag : bool) :
  let phase := status_phase (status state) in
  let current := fst (FinderView.render state flag) in
  let earlier := EarlierFinder.render state flag in
  FinderView.is_progress current
  = EarlierFinder.is_loading earlier
      && negb (bool_decide (phase = Phase.feedback_completed))
    || bool_decide (phase = Phase.await_feedback) /\
  FinderView.is_recommendations current
  = EarlierFinder.is_recommendations earlier
    || bool_decide (phase = Phase.completed)
    || bool_decide (phase = Phase.feedback_completed).
Proof.
  cbv zeta. unfold FinderView.render, EarlierFinder.render, FinderView.phase_of.
  destruct (status_phase (status state)), flag,
    (processing_inProgress (processing state)),
    (JsString.present (processing_recommendations (processing state)));
    split; reflexivity.
Qed.

(** ** trim *)

Lemma trimStart_blank (s : string) :
  JsString.blank s = true -> JsString.trimStart s = EmptyString.
Proof.
  unfold JsString.blank.
  induction s as [| c s IH]; [reflexivity |].
  cbn [JsString.all_units JsString.trimStart]. intros [Hc Hs]%andb_prop.
  rewrite Hc. exact (IH Hs).
Qed.

(** What [trimStart] leaves of a string that is not blank starts with a
    code unit that is not white space. *)
Lemma trimStart_not_blank (s : string) :
  JsString.blank s = false ->
  exists c rest, JsString.trimStart s = String c rest /\
                 JsString.is_white_space c = false.
Proof.
  unfold JsString.blank.
  induction s as [| c s IH]; [discriminate |].
  cbn [JsString.all_units JsString.trimStart].
  destruct (JsString.is_white_space c) eqn:Hc.
  - simpl. exact IH.
  - intros _. exists c, s. split; [reflexivity | exact Hc].
Qed.

Lemma trimEnd_head (c : ascii) (rest : string) :
  JsString.is_white_space c = false ->
  exists kept, JsString.trimEnd (String c rest) = String c kept.
Proof.
  intros Hc. cbn [JsString.trimEnd]. rewrite Hc.
  destruct (JsString.trimEnd rest) as [| d kept]; eauto.
Qed.

(** [s.trim()] is the empty string exactly when [s] is blank. *)
Lemma trim_truth (s : string) :
  JsString.ToBoolean (JsString.trim s) = negb (JsString.blank s).
Proof.
  unfold JsString.trim.
  destruct (JsString.blank s) eqn:Hs.
  - rewrite (trimStart_blank s Hs). reflexivity.
  - destruct (trimStart_not_blank s Hs) as (c & rest & -> & Hc).
    destruct (trimEnd_head c rest Hc) as [kept ->]. reflexivity.
Qed.

(** ** FeedbackPrompt *)

(** One click on Submit. *)
Lemma submit_click (options : list string) (isProcessing : bool)
    (customFeedback : string) :
  EarlierFinder.after_effects customFeedback
    (EarlierFinder.fired options isProcessing customFeedback
       EarlierFinder.ClickSubmit)
  = if isProcessing || JsString.blank customFeedback
    then (customFeedback, [])
    else (EmptyString, [customFeedback]).
Proof.
  cbn [EarlierFinder.fired].
  unfold EarlierFinder.submit_disabled, EarlierFinder.submit_onClick.
  rewrite trim_truth.
  destruct isProcessing, (JsString.blank customFeedback); reflexivity.
Qed.

Lemma interact_submit_clicks (options : list string) (isProcessing : bool)
    (customFeedback : string) (n : nat) :
  EarlierFinder.interact options isProcessing customFeedback
    (repeat EarlierFinder.ClickSubmit (S n))
  = if isProcessing || JsString.blank customFeedback
    then (customFeedback, [])
    else (EmptyString, [customFeedback]).
Proof.
  revert customFeedback.
  induction n as [| n IH]; intros customFeedback.
  - cbn [repeat EarlierFinder.interact]. rewrite submit_click.
    destruct (isProcessing || JsString.blank customFeedback); reflexivity.
  - change (repeat EarlierFinder.ClickSubmit (S (S n)))
      with (EarlierFinder.ClickSubmit :: repeat EarlierFinder.ClickSubmit (S n)).
    cbn [EarlierFinder.interact]. rewrite submit_click.
    destruct (isProcessing || JsString.blank customFeedback) eqn:Hoff;
      rewrite IH.
    + rewrite Hoff. reflexivity.
    + rewrite orb_true_r. reflexivity.
Qed.

(** However often Submit is clicked in a row, the text of the input is
    submitted at most once: as it was typed, white space at its ends
    included, and the input is empty afterwards; if nothing is submitted
    (the text is blank, or the prompt is processing) the input keeps its
    text. *)
Theorem submit_clicks_submit_once (options : list string) (isProcessing : bool)
    (customFeedback : string) (n : nat) :
  let '(text, submitted) :=
    EarlierFinder.interact options isProcessing customFeedback
      (repeat EarlierFinder.ClickSubmit n) in
  (submitted = [] \/ submitted = [customFeedback]) /\
  (submitted = [customFeedback] -> text = EmptyString) /\
  (submitted = [] -> text = customFeedback) /\
  (0 < n -> isProcessing = false -> JsString.blank customFeedback = false ->
   submitted = [customFeedback]).
Proof.
  destruct n as [| n].
  - simpl. repeat split; auto; try discriminate. lia.
  - rewrite interact_submit_clicks.
    destruct isProcessing, (JsString.blank customFeedback); cbn;
      repeat split; auto; discriminate.
Qed.

Lemma after_effects_fired (options : list string) (isProcessing : bool)
    (customFeedback : string) (action : EarlierFinder.UserAction) :
  Forall (fun feedback => In feedback options \/ JsString.blank feedback = false)
         (snd (EarlierFinder.after_effects customFeedback
                 (EarlierFinder.fired options isProcessing customFeedback action))).
Proof.
  destruct action as [idx | value |];
    [cbn [EarlierFinder.fired] | cbn [EarlierFinder.fired] |].
  - destruct (nth_error options idx) as [option |] eqn:Hidx; [| constructor].
    destruct (EarlierFinder.option_disabled isProcessing); cbn; [constructor |].
    constructor; [| constructor]. left. eapply nth_error_In, Hidx.
  - destruct (EarlierFinder.input_disabled isProcessing); constructor.
  - rewrite (submit_click options).
    destruct isProcessing; [constructor |].
    destruct (JsString.blank customFeedback) eqn:Hb; cbn; constructor;
      [| constructor].
    right. exact Hb.
Qed.

(** Whatever the user does with the prompt (clicks on option buttons,
    typing, clicks on Submit, in any order), every feedback that reaches
    [onSubmitFeedback] is one of the options or a text with a code unit
    that is not white space: a blank text is never submitted. *)
Theorem submitted_feedback_is_an_option_or_not_blank
    (options : list string) (isProcessing : bool)
    (customFeedback : string) (actions : list EarlierFinder.UserAction) :
  Forall (fun feedback => In feedback options \/ JsString.blank feedback = false)
         (snd (EarlierFinder.interact options isProcessing customFeedback actions)).
Proof.
  revert customFeedback.
  induction actions as [| action actions IH]; intros customFeedback;
    [constructor |].
  cbn [EarlierFinder.interact].
  pose proof (after_effects_fired options isProcessing customFeedback action)
    as Hnow.
  destruct (EarlierFinder.after_effects customFeedback
              (EarlierFinder.fired options isProcessing customFeedback action))
    as [text submitted].
  specialize (IH text).
  destruct (EarlierFinder.interact options isProcessing text actions)
    as [final later].
  cbn [snd] in *. apply Forall_app. split; assumption.
Qed.

(** While [isProcessing] is set every control of the prompt is disabled:
    no sequence of actions submits anything or changes the text of the
    input. *)
Theorem nothing_is_submitted_while_processing (options : list string)
    (customFeedback : string) (actions : list EarlierFinder.UserAction) :
  EarlierFinder.interact options true customFeedback actions
  = (customFeedback, []).
Proof.
  induction actions as [| action actions IH]; [reflexivity |].
  cbn [EarlierFinder.interact].
  assert (Hfired :
    EarlierFinder.fired options true customFeedback action = []).
  { destruct action as [idx | value |]; cbn [EarlierFinder.fired];
      try reflexivity.
    destruct (nth_error options idx); reflexivity. }
  rewrite Hfired. cbn [EarlierFinder.after_effects]. rewrite IH. reflexivity.
Qed.

(** ** The answer of the click, as a text *)

(** Two answers are the same text only for the same option and the same
    location: from the answer the back end can tell which option was
    chosen, whatever characters the options hold. *)
Theorem feedbackJsonString_tells_answers_apart
    (state state' : RestaurantFinderAgentState) (option option' : string) :
  RestaurantFinder.feedbackJsonString state option
  = RestaurantFinder.feedbackJsonString state' option' <->
  option = option' /\
  search_location (search state) = search_location (search state').
Proof.
  split.
  - intros Heq.
    pose proof (parse_stringify_members "feedbackText" option
                  "originalLocation" (RestaurantFinder.originalLocation state))
      as H.
    pose proof (parse_stringify_members "feedbackText" option'
                  "originalLocation" (RestaurantFinder.originalLocation state'))
      as H'.
    fold (RestaurantFinder.feedbackJsonString state option) in H.
    fold (RestaurantFinder.feedbackJsonString state' option') in H'.
    rewrite Heq, H' in H. rewrite !originalLocation_is_location in H.
    injection H as -> ->. split; reflexivity.
  - intros [-> Hloc]. rewrite !feedbackJsonString_text, Hloc. reflexivity.
Qed.

Lemma all_units_append (member : ascii -> bool) (a b : string) :
  JsString.all_units member (a +:+ b)
  = JsString.all_units member a && JsString.all_units member b.
Proof.
  induction a as [| c a IH]; [reflexivity |].
  rewrite append_cons. cbn [JsString.all_units]. rewrite IH. apply andb_assoc.
Qed.

Lemma quote_unit_printable (c : ascii) :
  JsString.all_units JsString.printable (JSON.quote_unit c) = true.
Proof. destruct c as [[] [] [] [] [] [] [] []]; reflexivity. Qed.

Lemma quote_units_printable (s : string) :
  JsString.all_units JsString.printable (JSON.quote_units s) = true.
Proof.
  induction s as [| c s IH]; [reflexivity |].
  cbn [JSON.quote_units]. rewrite all_units_append, quote_unit_printable.
  exact IH.
Qed.

Lemma QuoteJSONString_printable (s : string) :
  JsString.all_units JsString.printable (JSON.QuoteJSONString s) = true.
Proof.
  unfold JSON.QuoteJSONString. cbn [JsString.all_units].
  rewrite all_units_append, quote_units_printable. reflexivity.
Qed.

(** The answer holds no control character, whatever the option and the
    location hold: a line feed, a tab or a NUL of the option is sent as its
    escape, so the answer is one line of text. *)
Theorem answer_has_no_control_character
    (state : RestaurantFinderAgentState) (option : string) :
  JsString.all_units JsString.printable
    (RestaurantFinder.feedbackJsonString state option) = true.
Proof.
  rewrite feedbackJsonString_text, !all_units_append, !QuoteJSONString_printable.
  reflexivity.
Qed.

(** ** The patterns of [strong] *)

Lemma append_nil_r (a : string) : a +:+ EmptyString = a.
Proof.
  induction a as [| c a IH]; [reflexivity |].
  rewrite append_cons, IH. reflexivity.
Qed.

Lemma append_is_nil (a b : string) :
  a +:+ b = EmptyString -> a = EmptyString /\ b = EmptyString.
Proof.
  destruct a; [intros H; rewrite append_nil_l in H; auto |].
  rewrite append_cons. discriminate.
Qed.

Lemma nullable_denotes (r : RegExp.Pattern) :
  RegExp.nullable r = true <-> RegExp.denotes r EmptyString.
Proof.
  induction r as [| | member | r1 IH1 r2 IH2 | r1 IH1 r2 IH2 | r IH];
    cbn [RegExp.nullable].
  - split; [discriminate | intros H; inversion H].
  - split; [intros _; constructor | reflexivity].
  - split; [discriminate | intros H; inversion H].
  - rewrite andb_true_iff, IH1, IH2. split.
    + intros [H1 H2]. exact (RegExp.denotes_Seq _ _ _ _ H1 H2).
    + intros H. inversion H as [| | ? ? a b Ha Hb | | | |]; subst.
      destruct (append_is_nil a b) as [-> ->]; [assumption |]. auto.
  - rewrite orb_true_iff, IH1, IH2. split.
    + intros [H | H];
        [apply RegExp.denotes_Alt_left | apply RegExp.denotes_Alt_right];
        exact H.
    + intros H. inversion H; subst; auto.
  - split; [intros _; constructor | reflexivity].
Qed.

(** A string of [Star body] that is not empty starts with a string of
    [body] that is not empty. *)
Lemma denotes_Star_cons (body : RegExp.Pattern) (s : string) :
  RegExp.denotes (RegExp.Star body) s ->
  forall c rest, s = String c rest ->
  exists a b, rest = a +:+ b /\ RegExp.denotes body (String c a) /\
              RegExp.denotes (RegExp.Star body) b.
Proof.
  intros H. remember (RegExp.Star body) as r eqn:Hr.
  induction H as [| | | | | body' | body' a b Ha _ Hb IHb]; try discriminate Hr.
  - intros c rest Habs. discriminate Habs.
  - injection Hr as ->. intros c rest Heq.
    destruct a as [| x a].
    + rewrite append_nil_l in Heq. exact (IHb eq_refl c rest Heq).
    + rewrite append_cons in Heq. injection Heq as -> <-.
      exists a, b. auto.
Qed.

Lemma after_denotes (r : RegExp.Pattern) (c : ascii) (s : string) :
  RegExp.denotes (RegExp.after c r) s <-> RegExp.denotes r (String c s).
Proof.
  revert s.
  induction r as [| | member | r1 IH1 r2 IH2 | r1 IH1 r2 IH2 | r IH];
    intros s; cbn [RegExp.after].
  - split; intros H; inversion H.
  - split; intros H; inversion H.
  - destruct (member c) eqn:Hc; split; intros H; inversion H; subst.
    + constructor. exact Hc.
    + constructor.
    + congruence.
  - assert (Hseq : RegExp.denotes (RegExp.Seq (RegExp.after c r1) r2) s
                   <-> exists a b, s = a +:+ b /\
                         RegExp.denotes r1 (String c a) /\ RegExp.denotes r2 b).
    { split.
      - intros H. inversion H as [| | ? ? a b Ha Hb | | | |]; subst.
        exists a, b. rewrite <- IH1. auto.
      - intros (a & b & -> & Ha & Hb).
        constructor; [apply IH1; exact Ha | exact Hb]. }
    assert (Hgoal : RegExp.denotes (RegExp.Seq r1 r2) (String c s)
                    <-> (exists a b, s = a +:+ b /\
                           RegExp.denotes r1 (String c a) /\ RegExp.denotes r2 b)
                        \/ (RegExp.denotes r1 EmptyString /\
                            RegExp.denotes r2 (String c s))).
    { split.
      - intros H. remember (String c s) as t eqn:Heq.
        inversion H as [| | ? ? a b Ha Hb | | | |]; subst.
        destruct a as [| x a].
        + rewrite append_nil_l in *. subst b. right. auto.
        + rewrite append_cons in *.
          match goal with
          | E : String _ _ = String _ _ |- _ => injection E as -> <-
          end.
          left. eauto.
      - intros [(a & b & -> & Ha & Hb) | [Ha Hb]].
        + rewrite <- append_cons. constructor; assumption.
        + rewrite <- (append_nil_l (String c s)). constructor; assumption. }
    rewrite Hgoal. destruct (RegExp.nullable r1) eqn:Hn.
    + split.
      * intros H. inversion H; subst.
        -- left. apply Hseq. assumption.
        -- right. split; [apply nullable_denotes; exact Hn | apply IH2; assumption].
      * intros [H | [_ H]].
        -- apply RegExp.denotes_Alt_left, Hseq, H.
        -- apply RegExp.denotes_Alt_right, IH2, H.
    + rewrite Hseq. split; [auto |].
      intros [H | [H _]]; [exact H |].
      apply nullable_denotes in H. congruence.
  - split; intros H; inversion H; subst.
    + apply RegExp.denotes_Alt_left, IH1. assumption.
    + apply RegExp.denotes_Alt_right, IH2. assumption.
    + apply RegExp.denotes_Alt_left, IH1. assumption.
    + apply RegExp.denotes_Alt_right, IH2. assumption.
  - split.
    + intros H. inversion H as [| | ? ? a b Ha Hb | | | |]; subst.
      rewrite <- append_cons. constructor; [apply IH; exact Ha | exact Hb].
    + intros H.
      destruct (denotes_Star_cons r _ H c s eq_refl) as (a & b & -> & Ha & Hb).
      constructor; [apply IH; exact Ha | exact Hb].
Qed.

(** The matcher decides the strings of the pattern. *)
Lemma matches_denotes (r : RegExp.Pattern) (s : string) :
  RegExp.matches r s = true <-> RegExp.denotes r s.
Proof.
  revert r. induction s as [| c s IH]; intros r; cbn [RegExp.matches].
  - apply nullable_denotes.
  - rewrite IH. apply after_denotes.
Qed.

Lemma denotes_Star_Any (s : string) : RegExp.denotes (RegExp.Star RegExp.Any) s.
Proof.
  induction s as [| c s IH]; [constructor |].
  change (String c s) with (String c EmptyString +:+ s).
  constructor; [constructor; reflexivity | exact IH].
Qed.

(** [test]: a string of the pattern somewhere in the text. *)
Lemma test_denotes (r : RegExp.Pattern) (s : string) :
  RegExp.test r s = true <-> exists before found rest,
    s = before +:+ found +:+ rest /\ RegExp.denotes r found.
Proof.
  unfold RegExp.test. rewrite matches_denotes. split.
  - intros H. inversion H as [| | ? ? a b _ Hb | | | |]; subst.
    inversion Hb as [| | ? ? f t Hf _ | | | |]; subst. eauto.
  - intros (before & found & rest & -> & Hf).
    constructor; [apply denotes_Star_Any |].
    constructor; [exact Hf | apply denotes_Star_Any].
Qed.

Lemma denotes_Class_inv (member : ascii -> bool) (s : string) :
  RegExp.denotes (RegExp.Class member) s ->
  exists c, s = String c EmptyString /\ member c = true.
Proof. intros H. inversion H; subst. eauto. Qed.

Lemma denotes_Unit_inv (c : ascii) (s : string) :
  RegExp.denotes (RegExp.Unit c) s -> s = String c EmptyString.
Proof.
  intros H. apply denotes_Class_inv in H as (x & -> & Hx).
  apply Ascii.eqb_eq in Hx. now subst.
Qed.

Lemma denotes_Unit (c : ascii) :
  RegExp.denotes (RegExp.Unit c) (String c EmptyString).
Proof. constructor. apply Ascii.eqb_refl. Qed.

Lemma denotes_digit_slash_five (d : ascii) :
  RegExp.digit d = true ->
  RegExp.denotes RegExp.digit_slash_five (String d "/5").
Proof.
  intros Hd.
  change (String d "/5") with (String d EmptyString +:+ ("/" +:+ "5")).
  constructor; [constructor; exact Hd |].
  constructor; apply denotes_Unit.
Qed.

Lemma denotes_digit_slash_five_inv (s : string) :
  RegExp.denotes RegExp.digit_slash_five s ->
  exists d, RegExp.digit d = true /\ s = String d "/5".
Proof.
  intros H. inversion H as [| | ? ? a b Ha Hb | | | |]; subst.
  apply denotes_Class_inv in Ha as (d & -> & Hd).
  inversion Hb as [| | ? ? u v Hu Hv | | | |]; subst.
  apply denotes_Unit_inv in Hu as ->. apply denotes_Unit_inv in Hv as ->.
  exists d. auto.
Qed.

(** The strings of the rating pattern: a digit and [/5], or a digit, a dot,
    a digit and [/5]. *)
Lemma denotes_rating (s : string) :
  RegExp.denotes RegExp.rating s <->
  exists d, RegExp.digit d = true /\
    (s = String d "/5" \/
     exists e, RegExp.digit e = true /\
               s = String d (String "." (String e "/5"))).
Proof.
  split.
  - intros H. inversion H as [| | ? ? a b Ha Hb | | | |]; subst.
    apply denotes_Class_inv in Ha as (d & -> & Hd). exists d. split; [exact Hd |].
    inversion Hb as [| | ? ? g t Hg Ht | | | |]; subst.
    inversion Ht as [| | ? ? u v Hu Hv | | | |]; subst.
    apply denotes_Unit_inv in Hu as ->. apply denotes_Unit_inv in Hv as ->.
    inversion Hg as [| | | ? ? ? Hopt | ? ? ? Hopt | |]; subst.
    + inversion Hopt as [| | ? ? x y Hx Hy | | | |]; subst.
      apply denotes_Unit_inv in Hx as ->.
      apply denotes_Class_inv in Hy as (e & -> & He).
      right. exists e. split; [exact He | reflexivity].
    + inversion Hopt; subst. left. reflexivity.
  - intros (d & Hd & [-> | (e & He & ->)]).
    + change (String d "/5")
        with (String d EmptyString +:+ (EmptyString +:+ ("/" +:+ "5"))).
      constructor; [constructor; exact Hd |].
      constructor; [apply RegExp.denotes_Alt_right; constructor |].
      constructor; apply denotes_Unit.
    + change (String d (String "." (String e "/5")))
        with (String d EmptyString
              +:+ (("." +:+ String e EmptyString) +:+ ("/" +:+ "5"))).
      constructor; [constructor; exact Hd |].
      constructor.
      * apply RegExp.denotes_Alt_left. constructor; [apply denotes_Unit |].
        constructor. exact He.
      * constructor; apply denotes_Unit.
Qed.

(** The rating test finds a digit followed by [/5]. *)
Lemma rating_found (text : string) :
  RegExp.looks_like_rating text = true <->
  exists before d rest,
    text = before +:+ String d "/5" +:+ rest /\ RegExp.digit d = true.
Proof.
  unfold RegExp.looks_like_rating. rewrite test_denotes. split.
  - intros (before & found & rest & -> & Hf).
    apply denotes_rating in Hf as (d & Hd & [-> | (e & He & ->)]).
    + exists before, d, rest. auto.
    + exists (before +:+ String d "."), e, rest. split; [| exact He].
      rewrite !append_assoc. reflexivity.
  - intros (before & d & rest & -> & Hd).
    exists before, (String d "/5"), rest. split; [reflexivity |].
    apply denotes_rating. exists d. auto.
Qed.

(** The optional group of the rating pattern never changes the verdict:
    [/\d(\.\d)?\/5/] accepts a text exactly when [/\d\/5/] does, that is
    when the text holds a digit followed by [/5]. *)
Theorem rating_test_without_the_optional_group (text : string) :
  RegExp.looks_like_rating text = RegExp.test RegExp.digit_slash_five text.
Proof.
  apply eq_true_iff_eq. rewrite rating_found, test_denotes. split.
  - intros (before & d & rest & -> & Hd).
    exists before, (String d "/5"), rest. split; [reflexivity |].
    apply denotes_digit_slash_five, Hd.
  - intros (before & found & rest & -> & Hf).
    apply denotes_digit_slash_five_inv in Hf as (d & Hd & ->).
    exists before, d, rest. auto.
Qed.

Lemma denotes_Star_Class (member : ascii -> bool) (s : string) :
  RegExp.denotes (RegExp.Star (RegExp.Class member)) s
  <-> JsString.all_units member s = true.
Proof.
  split.
  - intros H. remember (RegExp.Star (RegExp.Class member)) as r eqn:Hr.
    induction H as [| | | | | body | body a b Ha _ _ IHb]; try discriminate Hr.
    + reflexivity.
    + injection Hr as ->. apply denotes_Class_inv in Ha as (c & -> & Hc).
      rewrite append_cons, append_nil_l. cbn [JsString.all_units].
      rewrite Hc. exact (IHb eq_refl).
  - induction s as [| c s IH]; [constructor |].
    cbn [JsString.all_units]. intros [Hc Hs]%andb_prop.
    change (String c s) with (String c EmptyString +:+ s).
    constructor; [constructor; exact Hc | exact (IH Hs)].
Qed.

(** The strings of the name pattern. *)
Lemma denotes_name (s : string) :
  RegExp.denotes RegExp.name s <->
  exists c rest, s = String c rest /\ RegExp.upper c = true /\
                 rest <> EmptyString /\
                 JsString.all_units RegExp.name_unit rest = true.
Proof.
  split.
  - intros H. inversion H as [| | ? ? a b Ha Hb | | | |]; subst.
    apply denotes_Class_inv in Ha as (c & -> & Hc).
    inversion Hb as [| | ? ? x y Hx Hy | | | |]; subst.
    apply denotes_Class_inv in Hx as (d & -> & Hd).
    apply denotes_Star_Class in Hy.
    exists c, (String d y). repeat split; [exact Hc | discriminate |].
    cbn [JsString.all_units]. rewrite Hd. exact Hy.
  - intros (c & rest & -> & Hc & Hrest & Hall).
    destruct rest as [| d rest]; [congruence |].
    cbn [JsString.all_units] in Hall. apply andb_prop in Hall as [Hd Hall].
    change (String c (String d rest))
      with (String c EmptyString +:+ (String d EmptyString +:+ rest)).
    constructor; [constructor; exact Hc |].
    constructor; [constructor; exact Hd | apply denotes_Star_Class, Hall].
Qed.

(** The name test of [strong], pattern and length together, accepts
    exactly the texts of four code units or more that start with a capital
    letter A to Z and go on with letters, digits, underscores, white space,
    apostrophes, ampersands, commas and hyphens: a period, a slash or a
    letter with an accent anywhere makes the text fail. *)
Theorem name_test_decides (text : string) :
  RegExp.looks_like_name text = true <->
  exists c rest, text = String c rest /\ RegExp.upper c = true /\
                 3 <= String.length rest /\
                 JsString.all_units RegExp.name_unit rest = true.
Proof.
  unfold RegExp.looks_like_name.
  rewrite andb_true_iff, matches_denotes, denotes_name, bool_decide_eq_true.
  split.
  - intros [(c & rest & -> & Hc & _ & Hall) Hlen]. simpl in Hlen.
    exists c, rest. repeat split; [exact Hc | lia | exact Hall].
  - intros (c & rest & -> & Hc & Hlen & Hall). split; [| simpl; lia].
    exists c, rest. repeat split; [exact Hc | | exact Hall].
    intros ->. simpl in Hlen. lia.
Qed.

Lemma upper_is_name_unit (c : ascii) :
  RegExp.upper c = true -> RegExp.name_unit c = true.
Proof.
  unfold RegExp.name_unit, RegExp.word, RegExp.upper. intros ->. reflexivity.
Qed.

(** No text is accepted by both patterns of [strong]: a text of the name
    pattern holds no slash, and the rating pattern needs one.  So the order
    of the two tests decides nothing for the patterns. *)
Theorem name_pattern_excludes_rating_pattern (text : string) :
  RegExp.matches RegExp.name text = true ->
  RegExp.looks_like_rating text = false.
Proof.
  intros Hname. apply matches_denotes, denotes_name in Hname
    as (c & rest & -> & Hc & _ & Hall).
  assert (Hunits : JsString.all_units RegExp.name_unit (String c rest) = true).
  { cbn [JsString.all_units]. rewrite (upper_is_name_unit c Hc). exact Hall. }
  destruct (RegExp.looks_like_rating (String c rest)) eqn:Hr; [| reflexivity].
  apply rating_found in Hr as (before & d & after & Heq & _).
  rewrite Heq, !all_units_append in Hunits.
  cbn [JsString.all_units] in Hunits.
  replace (RegExp.name_unit "/") with false in Hunits by reflexivity.
  rewrite andb_false_l, !andb_false_r in Hunits. discriminate Hunits.
Qed.

Lemma name_pattern_excludes_rating_pattern_witness :
  RegExp.matches RegExp.name "Joe's Bar & Grill" = true /\
  RegExp.looks_like_rating "Joe's Bar & Grill" = false.
Proof.
  split; [reflexivity |].
  apply (name_pattern_excludes_rating_pattern "Joe's Bar & Grill").
  reflexivity.
Defined.

(** ** The render function of the guide and that of the component *)

(** The excerpt of the guide returns an element exactly when
    [args.feedbackOptions] is an array, and throws a TypeError otherwise
    (on [args] that is [undefined] or [null], on options that are missing
    or of another type).  Where it returns, the component, once [respond]
    is there, shows the same heading and buttons with the same labels, but
    the buttons do not answer alike: a button of the excerpt gives its
    option to [respond], the button of the component for an option that is
    a text gives a JSON text, never the option.  Where the excerpt throws,
    the component shows the section with its five default options. *)
Theorem guide_render_and_component_render
    (R : Type) (args : Js.Value) (respond : R) :
  (GuideRender.renderAndWaitForResponse args = None
   <-> Js.isArray (Js.optional_member args "feedbackOptions") = false) /\
  (forall heading buttons,
      GuideRender.renderAndWaitForResponse args
      = Some (GuideRender.FeedbackSection heading buttons) ->
      RestaurantFinder.renderAndWaitForResponse args (Some respond)
      = RestaurantFinder.FeedbackSection heading (map GuideRender.label buttons) /\
      (forall b, In b buttons -> GuideRender.responds b = GuideRender.label b) /\
      (forall b text (state : RestaurantFinderAgentState),
          In b buttons -> GuideRender.label b = Js.Str text ->
          GuideRender.responds b = Js.Str text /\
          RestaurantFinder.responded (RestaurantFinder.onClick state text)
          <> Some text)) /\
  (GuideRender.renderAndWaitForResponse args = None ->
   exists heading,
     RestaurantFinder.renderAndWaitForResponse args (Some respond)
     = RestaurantFinder.FeedbackSection heading
         (map Js.Str RestaurantFinder.defaultFeedbackOptions)).
Proof.
  assert (Hcases :
    (exists elems,
        Js.optional_member args "feedbackOptions" = Js.Array elems /\
        GuideRender.renderAndWaitForResponse args
        = Some (GuideRender.FeedbackSection
                  (Js.or (Js.optional_member args "message")
                     (Js.Str "How do you feel about these recommendations?"))
                  (map GuideRender.button elems))) \/
    (Js.isArray (Js.optional_member args "feedbackOptions") = false /\
     GuideRender.renderAndWaitForResponse args = None)).
  { unfold GuideRender.renderAndWaitForResponse, GuideRender.destructure.
    destruct args as [| | b | | n | s | elems | props];
      try (right; split; reflexivity).
    cbn [Js.optional_member mbind option_bind].
    destruct (Js.own_property "feedbackOptions" props)
      as [| | b | | n | s | elems | props'];
      try (right; split; reflexivity).
    left. exists elems. split; reflexivity. }
  rewrite render_with_respond.
  destruct Hcases as [(elems & Harray & Hguide) | [Hnot Hguide]];
    rewrite Hguide.
  - rewrite Harray. cbn [Js.isArray RestaurantFinder.array_elements].
    split; [split; discriminate |]. split; [| discriminate].
    intros heading buttons Heq. injection Heq as <- <-.
    split; [| split].
    + assert (Hlabels : map GuideRender.label (map GuideRender.button elems)
                        = elems).
      { clear. induction elems as [| e elems IH]; [reflexivity |].
        cbn [map GuideRender.button GuideRender.label]. f_equal.
        apply IH. }
      rewrite Hlabels. unfold Js.or.
      destruct (Js.ToBoolean (Js.optional_member args "message")); reflexivity.
    + intros b [option [<- _]]%in_map_iff. reflexivity.
    + intros b text state [option [<- _]]%in_map_iff Hlabel.
      cbn [GuideRender.button GuideRender.label GuideRender.responds] in *.
      split; [exact Hlabel |].
      rewrite onClick_responds. intros Heq. injection Heq as Heq.
      pose proof (feedbackJsonString_longer state text) as Hlen.
      rewrite Heq in Hlen. lia.
  - rewrite Hnot. split; [split; intros _; reflexivity |].
    split; [discriminate |]. intros _. eexists. reflexivity.
Qed.

(** ** The status text *)

(** The status text tells the phase: two phases of the type never share a
    text, and the default text "Ready to assist" is shown exactly for the
    values that are none of the eight phases after [idle] ([idle] itself,
    [undefined], a name the type does not hold). *)
Theorem status_text_tells_the_phase :
  (forall p q : Phase.t,
      RestaurantFinder.getStatusText (RunPhases.observed p)
      = RestaurantFinder.getStatusText (RunPhases.observed q) -> p = q) /\
  (forall phase : option string,
      RestaurantFinder.getStatusText phase = "Ready to assist" <->
      forall p : Phase.t, p <> Phase.idle -> phase <> RunPhases.observed p).
Proof.
  split.
  - intros p q. destruct p, q; vm_compute; intros H;
      first [reflexivity | discriminate H].
  - intros phase. split.
    + intros Htext p Hp ->. destruct p; first [congruence | discriminate Htext].
    + intros Hnone.
      assert (Hne : forall p, p <> Phase.idle ->
                RestaurantFinder.isPhase phase (Phase.literal p) = false).
      { intros p Hp. destruct phase as [name |]; [| reflexivity].
        apply String.eqb_neq. intros ->. exact (Hnone p Hp eq_refl). }
      pose proof (Hne Phase.initialized ltac:(discriminate)) as H1.
      pose proof (Hne Phase.searching_restaurants ltac:(discriminate)) as H2.
      pose proof (Hne Phase.restaurants_found ltac:(discriminate)) as H3.
      pose proof (Hne Phase.presenting_recommendations ltac:(discriminate)) as H4.
      pose proof (Hne Phase.await_feedback ltac:(discriminate)) as H5.
      pose proof (Hne Phase.processing_feedback ltac:(discriminate)) as H6.
      pose proof (Hne Phase.completed ltac:(discriminate)) as H7.
      pose proof (Hne Phase.feedback_completed ltac:(discriminate)) as H8.
      cbn [Phase.literal] in *.
      unfold RestaurantFinder.getStatusText.
      rewrite H1, H2, H3, H4, H5, H6, H7, H8. reflexivity.
Qed.
